(** * fetch: asynchronous HTTP requests for Go/wasm (golangee/wasm-net)

    A shallow embedding of [src/fetch/http.go].  The Go code is effectful:
    it spawns a goroutine per request, registers deferred calls, recovers
    from panics, reads and closes response bodies and stores decoded JSON
    through a pointer.  The embedding makes each of these explicit:

    - a program state ([State]) with the heap of body streams, the heap of
      decode targets, the logger output and a trace of observable calls;
    - a state-and-panic monad [M] for sequential code;
    - function frames ([Frame]) that carry the stack of deferred calls;
    - a top level ([Main]) whose results list the goroutines a call spawned.
*)

From Stdlib Require Import Strings.String Strings.Ascii Strings.Byte.
From Stdlib Require Import Lists.List Arith.PeanoNat NArith.NArith Lia.
From stdpp Require Import base option list gmap strings.

Local Open Scope string_scope.

(* ------------------------------------------------------------------ *)
(** * Values of the Go side *)

(** The body of a [json.SyntaxError] message.  The scanner of
    encoding/json formats ["invalid character " + quoteChar(c) + " " +
    context]; the parts are kept apart here. *)
Inductive syntax_msg : Type :=
| InvalidCharacter (c : byte) (context : string)
| UnexpectedEnd.

(** Go [error] values. *)
Inductive error : Type :=
| errorString (msg : string)
| SyntaxError (msg : syntax_msg) (Offset : nat)
| InvalidUnmarshalError
| UnmarshalTypeError (Value : string) (Field : string)
| ErrBodyReadAfterClose.

(** Non-nil [interface{}] values, as carried by a panic or handed to the
    logger.  A [panic(nil)] reaches [recover] as a non-nil
    [*runtime.PanicNilError], so the value of a panic in flight is never
    nil. *)
Inductive value : Type :=
| VError (e : error)
| VString (s : string)
| VRuntimeError (msg : string).

Definition nil_dereference : value :=
  VRuntimeError "invalid memory address or nil pointer dereference".

(** A handle names a body stream in the heap of streams: two responses
    with the same handle share the stream. *)
Definition handle := nat.

(** [*http.Response]: the pointer may be nil ([option]); the guarantee of
    net/http that [Body] is never nil is kept. *)
Record Response : Type := mkResponse {
  StatusCode : nat;
  Body : handle
}.

Inductive Context : Type :=
| context_Background
| context_WithCancel (parent : Context).

(** [*http.Request]. *)
Record HttpRequest : Type := mkRequest {
  Method : string;
  URL : string;
  ctx : Context;
  RequestBody : option (list byte)
}.

(** The state of one response body: an [io.ReadCloser]. *)
Record Stream : Type := mkStream {
  content : list byte;          (* bytes not yet read *)
  failure : option error;       (* met after [content] in place of EOF *)
  closed : bool;
  closes : nat                  (* how often Close was called *)
}.

Definition empty_stream : Stream :=
  {| content := []; failure := None; closed := false; closes := 0 |}.

(** Observable calls, in the order they happen. *)
Inductive Event : Type :=
| EvCallback (res : option Response) (err : option error)   (* f(res, err) *)
| EvText (res : string) (err : option error)                (* f(res, err) of AsText *)
| EvJSON (err : option error)                               (* f(err) of AsJSON *)
| EvReadAll (body : handle)
| EvClose (body : handle)
| EvUnmarshal (data : list byte).

Definition callback_of (e : Event) : option (option Response * option error) :=
  match e with EvCallback res err => Some (res, err) | _ => None end.

Definition text_of (e : Event) : option (string * option error) :=
  match e with EvText res err => Some (res, err) | _ => None end.

Definition json_of (e : Event) : option (option error) :=
  match e with EvJSON err => Some err | _ => None end.

Definition read_of (e : Event) : option handle :=
  match e with EvReadAll b => Some b | _ => None end.

Definition close_of (e : Event) : option handle :=
  match e with EvClose b => Some b | _ => None end.

Definition unmarshal_of (e : Event) : option (list byte) :=
  match e with EvUnmarshal d => Some d | _ => None end.

(** The invocations of each kind in a trace. *)
Definition callbacks (t : list Event) := omap callback_of t.
Definition texts (t : list Event) := omap text_of t.
Definition jsons (t : list Event) := omap json_of t.
Definition reads (t : list Event) := omap read_of t.
Definition closings (t : list Event) := omap close_of t.
Definition unmarshals (t : list Event) := omap unmarshal_of t.

(* ------------------------------------------------------------------ *)
(** * The scanner of encoding/json ([checkValid]) *)

Module scanner.

Inductive parse_state : Type := parseObjectKey | parseObjectValue | parseArrayValue.

(** The step functions of the scanner, as an enumeration. *)
Inductive step_fn : Type :=
| stateBeginValueOrEmpty | stateBeginValue | stateBeginStringOrEmpty
| stateBeginString | stateEndValue | stateEndTop
| stateInString | stateInStringEsc | stateInStringEscU | stateInStringEscU1
| stateInStringEscU12 | stateInStringEscU123
| stateNeg | state1 | state0 | stateDot | stateDot0 | stateE | stateESign | stateE0
| stateT | stateTr | stateTru | stateF | stateFa | stateFal | stateFals
| stateN | stateNu | stateNul | stateError.

Inductive scan_code : Type :=
| scanContinue | scanBeginLiteral | scanBeginObject | scanObjectKey
| scanObjectValue | scanEndObject | scanBeginArray | scanArrayValue
| scanEndArray | scanSkipSpace | scanEnd | scanError.

Record t : Type := mk {
  step : step_fn;
  endTop : bool;
  parseState : list parse_state;     (* innermost first *)
  err : option error;
  bytes : nat
}.

Definition maxNestingDepth : nat := 100 * 100.

Definition set_step (f : step_fn) (s : t) : t :=
  {| step := f; endTop := endTop s; parseState := parseState s; err := err s; bytes := bytes s |}.

Definition set_top (p : parse_state) (s : t) : t :=
  {| step := step s; endTop := endTop s; parseState := p :: tail (parseState s);
     err := err s; bytes := bytes s |}.

Definition reset (s : t) : t :=
  {| step := stateBeginValue; endTop := false; parseState := []; err := None; bytes := bytes s |}.

(** [s.error(c, context)]; the name [error] is taken by the type. *)
Definition error_ (s : t) (c : byte) (context : string) : scan_code * t :=
  (scanError,
   {| step := stateError; endTop := endTop s; parseState := parseState s;
      err := Some (SyntaxError (InvalidCharacter c context) (bytes s)); bytes := bytes s |}).

Definition pushParseState (s : t) (c : byte) (newParseState : parse_state)
    (successState : scan_code) : scan_code * t :=
  let s := {| step := step s; endTop := endTop s; parseState := newParseState :: parseState s;
              err := err s; bytes := bytes s |} in
  if (List.length (parseState s) <=? maxNestingDepth)%nat then (successState, s)
  else error_ s c "exceeded max depth".

Definition popParseState (s : t) : t :=
  let ps := tail (parseState s) in
  match ps with
  | [] => {| step := stateEndTop; endTop := true; parseState := ps; err := err s; bytes := bytes s |}
  | _ => {| step := stateEndValue; endTop := endTop s; parseState := ps; err := err s; bytes := bytes s |}
  end.

Definition code (c : byte) : nat := Byte.to_nat c.

(** The double quote, by its code. *)
Definition dquote : ascii := ascii_of_nat 34.
Definition eqc (c : byte) (a : ascii) : bool := (code c =? nat_of_ascii a)%nat.
Definition between (a : ascii) (c : byte) (b : ascii) : bool :=
  ((nat_of_ascii a <=? code c) && (code c <=? nat_of_ascii b))%nat.

Definition isSpace (c : byte) : bool :=
  (code c <=? 32)%nat && (eqc c " " || (code c =? 9)%nat || (code c =? 13)%nat || (code c =? 10)%nat).

Definition isDigit (c : byte) : bool := between "0" c "9".
Definition isHex (c : byte) : bool :=
  between "0" c "9" || between "a" c "f" || between "A" c "F".

Definition do_stateEndTop (s : t) (c : byte) : scan_code * t :=
  if negb (isSpace c) then (scanEnd, snd (error_ s c "after top-level value"))
  else (scanEnd, s).

Definition do_stateEndValue (s : t) (c : byte) : scan_code * t :=
  match parseState s with
  | [] =>
      do_stateEndTop
        {| step := stateEndTop; endTop := true; parseState := []; err := err s; bytes := bytes s |} c
  | ps :: _ =>
      if isSpace c then (scanSkipSpace, set_step stateEndValue s)
      else match ps with
           | parseObjectKey =>
               if eqc c ":" then (scanObjectKey, set_step stateBeginValue (set_top parseObjectValue s))
               else error_ s c "after object key"
           | parseObjectValue =>
               if eqc c "," then (scanObjectValue, set_step stateBeginString (set_top parseObjectKey s))
               else if eqc c "}" then (scanEndObject, popParseState s)
               else error_ s c "after object key:value pair"
           | parseArrayValue =>
               if eqc c "," then (scanArrayValue, set_step stateBeginValue s)
               else if eqc c "]" then (scanEndArray, popParseState s)
               else error_ s c "after array element"
           end
  end.

Definition do_stateBeginValue (s : t) (c : byte) : scan_code * t :=
  if isSpace c then (scanSkipSpace, s)
  else if eqc c "{" then pushParseState (set_step stateBeginStringOrEmpty s) c parseObjectKey scanBeginObject
  else if eqc c "[" then pushParseState (set_step stateBeginValueOrEmpty s) c parseArrayValue scanBeginArray
  else if eqc c dquote then (scanBeginLiteral, set_step stateInString s)
  else if eqc c "-" then (scanBeginLiteral, set_step stateNeg s)
  else if eqc c "0" then (scanBeginLiteral, set_step state0 s)
  else if eqc c "t" then (scanBeginLiteral, set_step stateT s)
  else if eqc c "f" then (scanBeginLiteral, set_step stateF s)
  else if eqc c "n" then (scanBeginLiteral, set_step stateN s)
  else if between "1" c "9" then (scanBeginLiteral, set_step state1 s)
  else error_ s c "looking for beginning of value".

Definition do_stateBeginString (s : t) (c : byte) : scan_code * t :=
  if isSpace c then (scanSkipSpace, s)
  else if eqc c dquote then (scanBeginLiteral, set_step stateInString s)
  else error_ s c "looking for beginning of object key string".

Definition do_state0 (s : t) (c : byte) : scan_code * t :=
  if eqc c "." then (scanContinue, set_step stateDot s)
  else if eqc c "e" || eqc c "E" then (scanContinue, set_step stateE s)
  else do_stateEndValue s c.

Definition do_stateESign (s : t) (c : byte) : scan_code * t :=
  if isDigit c then (scanContinue, set_step stateE0 s)
  else error_ s c "in exponent of numeric literal".

(** One letter of a literal: [want] moves on to [next]. *)
Definition expect (s : t) (c : byte) (want : ascii) (next : step_fn) (context : string)
    : scan_code * t :=
  if eqc c want then (scanContinue, set_step next s) else error_ s c context.

Definition hexdigit (s : t) (c : byte) (next : step_fn) : scan_code * t :=
  if isHex c then (scanContinue, set_step next s)
  else error_ s c "in \u hexadecimal character escape".

(** [s.step(s, c)]. *)
Definition do_step (s : t) (c : byte) : scan_code * t :=
  match step s with
  | stateBeginValueOrEmpty =>
      if isSpace c then (scanSkipSpace, s)
      else if eqc c "]" then do_stateEndValue s c
      else do_stateBeginValue s c
  | stateBeginValue => do_stateBeginValue s c
  | stateBeginStringOrEmpty =>
      if isSpace c then (scanSkipSpace, s)
      else if eqc c "}" then do_stateEndValue (set_top parseObjectValue s) c
      else do_stateBeginString s c
  | stateBeginString => do_stateBeginString s c
  | stateEndValue => do_stateEndValue s c
  | stateEndTop => do_stateEndTop s c
  | stateInString =>
      if eqc c dquote then (scanContinue, set_step stateEndValue s)
      else if eqc c "\" then (scanContinue, set_step stateInStringEsc s)
      else if (code c <? 32)%nat then error_ s c "in string literal"
      else (scanContinue, s)
  | stateInStringEsc =>
      if eqc c "b" || eqc c "f" || eqc c "n" || eqc c "r" || eqc c "t"
         || eqc c "\" || eqc c "/" || eqc c dquote
      then (scanContinue, set_step stateInString s)
      else if eqc c "u" then (scanContinue, set_step stateInStringEscU s)
      else error_ s c "in string escape code"
  | stateInStringEscU => hexdigit s c stateInStringEscU1
  | stateInStringEscU1 => hexdigit s c stateInStringEscU12
  | stateInStringEscU12 => hexdigit s c stateInStringEscU123
  | stateInStringEscU123 => hexdigit s c stateInString
  | stateNeg =>
      if eqc c "0" then (scanContinue, set_step state0 s)
      else if between "1" c "9" then (scanContinue, set_step state1 s)
      else error_ s c "in numeric literal"
  | state1 =>
      if isDigit c then (scanContinue, set_step state1 s) else do_state0 s c
  | state0 => do_state0 s c
  | stateDot =>
      if isDigit c then (scanContinue, set_step stateDot0 s)
      else error_ s c "after decimal point in numeric literal"
  | stateDot0 =>
      if isDigit c then (scanContinue, s)
      else if eqc c "e" || eqc c "E" then (scanContinue, set_step stateE s)
      else do_stateEndValue s c
  | stateE =>
      if eqc c "+" || eqc c "-" then (scanContinue, set_step stateESign s)
      else do_stateESign s c
  | stateESign => do_stateESign s c
  | stateE0 =>
      if isDigit c then (scanContinue, s) else do_stateEndValue s c
  | stateT => expect s c "r" stateTr "in literal true (expecting 'r')"
  | stateTr => expect s c "u" stateTru "in literal true (expecting 'u')"
  | stateTru => expect s c "e" stateEndValue "in literal true (expecting 'e')"
  | stateF => expect s c "a" stateFa "in literal false (expecting 'a')"
  | stateFa => expect s c "l" stateFal "in literal false (expecting 'l')"
  | stateFal => expect s c "s" stateFals "in literal false (expecting 's')"
  | stateFals => expect s c "e" stateEndValue "in literal false (expecting 'e')"
  | stateN => expect s c "u" stateNu "in literal null (expecting 'u')"
  | stateNu => expect s c "l" stateNul "in literal null (expecting 'l')"
  | stateNul => expect s c "l" stateEndValue "in literal null (expecting 'l')"
  | stateError => (scanError, s)
  end.

Definition is_scanError (c : scan_code) : bool :=
  match c with scanError => true | _ => false end.

Definition bump (s : t) : t :=
  {| step := step s; endTop := endTop s; parseState := parseState s; err := err s;
     bytes := S (bytes s) |}.

(** [s.eof()]: the code only; the caller reads [err]. *)
Definition eof (s : t) : scan_code * t :=
  match err s with
  | Some _ => (scanError, s)
  | None =>
      if endTop s then (scanEnd, s)
      else
        let s := snd (do_step s " "%byte) in
        if endTop s then (scanEnd, s)
        else match err s with
             | Some _ => (scanError, s)
             | None =>
                 (scanError,
                  {| step := step s; endTop := endTop s; parseState := parseState s;
                     err := Some (SyntaxError UnexpectedEnd (bytes s)); bytes := bytes s |})
             end
  end.

(** The loop of [checkValid] over the bytes of the input. *)
Fixpoint scan (data : list byte) (s : t) : option error :=
  match data with
  | [] => let '(c, s) := eof s in if is_scanError c then err s else None
  | c :: data =>
      let s := bump s in
      let '(r, s) := do_step s c in
      if is_scanError r then err s else scan data s
  end.

Definition zero : t :=
  {| step := stateBeginValue; endTop := false; parseState := []; err := None; bytes := 0 |}.

(** [checkValid(data, scan)]: nil ([None]) when [data] is one JSON value. *)
Definition checkValid (data : list byte) : option error := scan data (reset zero).

End scanner.


(* ------------------------------------------------------------------ *)
(** * The program state and the monads *)

Section Fetch.

(** The type of the value a decode target points to ([v] of [AsJSON]
    is a pointer to it). *)
Context {T : Type}.

(** [d.unmarshal(v)] of encoding/json: the store of an already validated
    document into the value behind the pointer.  It is driven by
    reflection on the target's type, so it is a parameter here.  It may
    store part of the document and still fail. *)
Variable unmarshal_value : list byte -> T -> T * option error.

Record State : Type := mkState {
  streams : gmap handle Stream;     (* the response bodies *)
  cells : gmap nat T;               (* the decode targets, by address *)
  log : list (list value);          (* the lines of the standard logger *)
  stack : list byte;                (* what debug.Stack() formats *)
  trace : list Event
}.

Definition record (e : Event) (s : State) : State :=
  {| streams := streams s; cells := cells s; log := log s; stack := stack s;
     trace := trace s ++ [e] |}.

Definition set_streams (m : gmap handle Stream) (s : State) : State :=
  {| streams := m; cells := cells s; log := log s; stack := stack s; trace := trace s |}.

Definition set_cells (m : gmap nat T) (s : State) : State :=
  {| streams := streams s; cells := m; log := log s; stack := stack s; trace := trace s |}.

Definition set_log (l : list (list value)) (s : State) : State :=
  {| streams := streams s; cells := cells s; log := l; stack := stack s; trace := trace s |}.

(** Every handle names a stream; one never written to is empty and open. *)
Definition stream_at (s : State) (b : handle) : Stream :=
  default empty_stream (streams s !! b).

(** How a call ends: it returns, or it panics with a value. *)
Inductive Outcome (A : Type) : Type :=
| Normal (a : A)
| Panicking (v : value).
Arguments Normal {A} a.
Arguments Panicking {A} v.

Definition panic_of {A} (o : Outcome A) : option value :=
  match o with Normal _ => None | Panicking v => Some v end.

(** Sequential code. *)
Definition M (A : Type) : Type := State -> Outcome A * State.

Definition ret {A} (a : A) : M A := fun s => (Normal a, s).

Definition bind {A B} (m : M A) (k : A -> M B) : M B :=
  fun s =>
    match m s with
    | (Normal a, s') => k a s'
    | (Panicking v, s') => (Panicking v, s')
    end.

Definition panic {A} (v : value) : M A := fun s => (Panicking v, s).

(** A deferred call.  It is run with the panic in flight, if any, and
    leaves the panic that is in flight after it: [recover] clears it, a
    panic of the deferred call itself replaces it. *)
Definition Deferred : Type := option value -> State -> option value * State.

(** The body of a function that uses [defer]: the deferred calls
    registered so far are threaded along, most recent first. *)
Definition Frame (A : Type) : Type :=
  list Deferred -> State -> Outcome A * list Deferred * State.

Definition fret {A} (a : A) : Frame A := fun ds s => (Normal a, ds, s).

Definition fbind {A B} (m : Frame A) (k : A -> Frame B) : Frame B :=
  fun ds s =>
    match m ds s with
    | (Normal a, ds', s') => k a ds' s'
    | (Panicking v, ds', s') => (Panicking v, ds', s')
    end.

(** A call made from inside the frame. *)
Definition lift {A} (m : M A) : Frame A :=
  fun ds s => let '(o, s') := m s in (o, ds, s').

(** [defer d]. *)
Definition defer (d : Deferred) : Frame unit :=
  fun ds s => (Normal tt, d :: ds, s).

(** A deferred call of an ordinary function: it does not recover. *)
Definition deferred {A} (m : M A) : Deferred :=
  fun inflight s =>
    match m s with
    | (Normal _, s') => (inflight, s')
    | (Panicking v, s') => (Some v, s')
    end.

(** The deferred calls run last-registered first, on return and on panic. *)
Fixpoint run_deferred (ds : list Deferred) (inflight : option value) (s : State)
    : option value * State :=
  match ds with
  | [] => (inflight, s)
  | d :: ds' => let '(inflight', s') := d inflight s in run_deferred ds' inflight' s'
  end.

(** A goroutine runs to its end; [Some v] means it died of the panic [v],
    which ends the whole process. *)
Definition Goroutine : Type := State -> option value * State.

Definition run_func (body : Frame unit) : Goroutine :=
  fun s => let '(o, ds, s') := body [] s in run_deferred ds (panic_of o) s'.

(** Code that may start goroutines: they are returned, not run. *)
Definition Main (A : Type) : Type := State -> Outcome A * State * list Goroutine.

(** [go func() { body }()]. *)
Definition go (body : Frame unit) : Main unit :=
  fun s => (Normal tt, s, [run_func body]).

(** A call on the calling thread. *)
Definition here {A} (m : M A) : Main A :=
  fun s => let '(o, s') := m s in (o, s', []).

(** Goroutines run one after the other (the wasm runtime has one thread);
    the first that dies of a panic stops the process. *)
Fixpoint run_goroutines (gs : list Goroutine) (s : State) : option value * State :=
  match gs with
  | [] => (None, s)
  | g :: gs' =>
      match g s with
      | (None, s') => run_goroutines gs' s'
      | (Some v, s') => (Some v, s')
      end
  end.

Declare Scope go_scope.
Delimit Scope go_scope with go.
Notation "x <- m ;; k" := (bind m (fun x => k))
  (at level 20, m at level 99, k at level 200, only parsing) : go_scope.
Notation "' pat <- m ;; k" := (bind m (fun x => match x with pat => k end))
  (at level 20, pat pattern, m at level 99, k at level 200, only parsing) : go_scope.
Notation "x <~ m ;; k" := (fbind m (fun x => k))
  (at level 20, m at level 99, k at level 200, only parsing) : go_scope.
Notation "' pat <~ m ;; k" := (fbind m (fun x => match x with pat => k end))
  (at level 20, pat pattern, m at level 99, k at level 200, only parsing) : go_scope.
Local Open Scope go_scope.

(* ------------------------------------------------------------------ *)
(** * The library calls the code makes *)

(** [*res] for a pointer [res]. *)
Definition deref {A} (p : option A) : M A :=
  match p with
  | Some a => ret a
  | None => panic nil_dereference
  end.

(** [ioutil.ReadAll(body)]: everything up to EOF or to the first error,
    together with that error.  A closed body fails at once. *)
Definition ioutil_ReadAll (b : handle) : M (list byte * option error) :=
  fun s =>
    let st := stream_at s b in
    let s := record (EvReadAll b) s in
    if closed st then (Normal ([], Some ErrBodyReadAfterClose), s)
    else
      (Normal (content st, failure st),
       set_streams
         (<[b := {| content := []; failure := failure st; closed := false;
                     closes := closes st |}]> (streams s)) s).

(** [body.Close()]. *)
Definition Body_Close (b : handle) : M (option error) :=
  fun s =>
    let st := stream_at s b in
    let s := record (EvClose b) s in
    (Normal None,
     set_streams
       (<[b := {| content := content st; failure := failure st; closed := true;
                   closes := S (closes st) |}]> (streams s)) s).

(** [json.Unmarshal(data, v)]: the document is checked as a whole first;
    only a valid one is stored through [v].  A nil [v], or a pointer to
    nothing, is an [InvalidUnmarshalError]. *)
Definition json_Unmarshal (data : list byte) (v : option nat) : M (option error) :=
  fun s =>
    let s := record (EvUnmarshal data) s in
    match scanner.checkValid data with
    | Some e => (Normal (Some e), s)
    | None =>
        match v ≫= (fun a => option_map (fun x => (a, x)) (cells s !! a)) with
        | None => (Normal (Some InvalidUnmarshalError), s)
        | Some (a, x) =>
            let '(x', e) := unmarshal_value data x in
            (Normal e, set_cells (<[a := x']> (cells s)) s)
        end
    end.

(** [log.Println(args...)]: one line. *)
Definition log_Println (args : list value) (s : State) : State :=
  set_log (log s ++ [args]) s.

(** [debug.Stack()]. *)
Definition debug_Stack (s : State) : list byte := stack s.

(** [recover()] inside a deferred call: the value of the panic in flight
    (nil when there is none), and the panic stops. *)
Definition recover (inflight : option value) : option value * option value :=
  (inflight, None).

(** [http.Client]: its [Do] is whatever transport the client is set up with. *)
Record Client : Type := mkClient {
  Do : option HttpRequest -> M (option Response * option error)
}.

Variable http_DefaultClient : Client.

(** [http.NewRequestWithContext(ctx, method, url, body)]. *)
Variable http_NewRequestWithContext :
  Context -> string -> string -> option (list byte) -> option HttpRequest * option error.

(* ------------------------------------------------------------------ *)
(** * src/fetch/http.go *)

(** The callback shapes; a call through one of them is recorded before
    the callee runs. *)
Definition Callback : Type := option Response -> option error -> M unit.
Definition TextCallback : Type := string -> option error -> M unit.
Definition ErrCallback : Type := option error -> M unit.

Definition call (f : Callback) (res : option Response) (err : option error) : M unit :=
  fun s => f res err (record (EvCallback res err) s).

Definition call_text (f : TextCallback) (res : string) (err : option error) : M unit :=
  fun s => f res err (record (EvText res err) s).

Definition call_err (f : ErrCallback) (err : option error) : M unit :=
  fun s => f err (record (EvJSON err) s).

(** [var GlobalPanicHandler = func() { ... }], used as a deferred call.
    The package never assigns the variable; this is the function it is
    initialised with. *)
Definition GlobalPanicHandler : Deferred :=
  fun inflight s =>
    let '(r, inflight) := recover inflight in
    match r with
    | None => (inflight, s)
    | Some r =>
        (inflight, log_Println [r; VString (string_of_list_byte (debug_Stack s))] s)
    end.

(** The function literal that [Request] starts as a goroutine. *)
Definition Request_func (client : Client) (request : option HttpRequest) (f : Callback)
    : Frame unit :=
  _ <~ defer GlobalPanicHandler ;;
  '(res, err) <~ lift (Do client request) ;;
  _ <~ (match err with
        | None =>
            r <~ lift (deref res) ;;
            defer (deferred (Body_Close (Body r)))
        | Some _ => fret tt
        end) ;;
  lift (call f res err).

(** [func Request(client, request, f)]. *)
Definition Request (client : Client) (request : option HttpRequest) (f : Callback)
    : Main unit :=
  go (Request_func client request f).

(** [func Get(url, f)]. *)
Definition Get (url : string) (f : Callback) : Main unit :=
  let '(req, err) := http_NewRequestWithContext context_Background "GET" url None in
  match err with
  | Some _ => here (call f None err)
  | None => Request http_DefaultClient req f
  end.

(** [func AsText(f)]. *)
Definition AsText (f : TextCallback) : Callback :=
  fun res err =>
    match err with
    | Some _ => call_text f "" err
    | None =>
        r <- deref res ;;
        '(buf, err) <- ioutil_ReadAll (Body r) ;;
        match err with
        | Some _ => call_text f "" err
        | None => call_text f (string_of_list_byte buf) None
        end
    end.

(** [func AsJSON(v, f)]. *)
Definition AsJSON (v : option nat) (f : ErrCallback) : Callback :=
  fun res err =>
    match err with
    | Some _ => call_err f err
    | None =>
        r <- deref res ;;
        '(buf, err) <- ioutil_ReadAll (Body r) ;;
        match err with
        | Some _ => call_err f err
        | None =>
            err <- json_Unmarshal buf v ;;
            match err with
            | Some _ => call_err f err
            | None => call_err f None
            end
        end
    end.

End Fetch.

Arguments State T : clear implicits.
Arguments M T A : clear implicits.
Arguments Frame T A : clear implicits.
Arguments Main T A : clear implicits.
Arguments Deferred T : clear implicits.
Arguments Goroutine T : clear implicits.
Arguments Client T : clear implicits.
Arguments Callback T : clear implicits.
Arguments TextCallback T : clear implicits.
Arguments ErrCallback T : clear implicits.
Arguments Outcome A : clear implicits.
Arguments Normal {A} a.
Arguments Panicking {A} v.

(* ------------------------------------------------------------------ *)
(** * The target type of the example in the comment of [AsJSON]

    [type MyType struct { SomeField string }], with the store that
    encoding/json performs into it.  Documents are read into a tree
    first; the store then follows [d.object] and [d.literalStore] for a
    struct with one string field.  Keys match a field by name, or failing
    that by name up to ASCII case; invalid UTF-8 inside strings is kept as
    it is. *)

Module json.

Import scanner.

#[warnings="-register-all"]
Inductive value : Type :=
| Null
| Bool (b : bool)
| Number (raw : list byte)
| String (s : list byte)
| Array (elems : list value)
| Object (members : list (list byte * value)).

Fixpoint skip_space (data : list byte) : list byte :=
  match data with
  | c :: rest => if isSpace c then skip_space rest else data
  | [] => []
  end.

(** The bytes of a string literal after its opening quote, up to the
    closing quote, escapes left as they are; and what follows. *)
Fixpoint string_raw (data : list byte) : list byte * list byte :=
  match data with
  | [] => ([], [])
  | c :: rest =>
      if eqc c dquote then ([], rest)
      else if eqc c "\" then
        match rest with
        | c2 :: rest2 => let '(r, k) := string_raw rest2 in (c :: c2 :: r, k)
        | [] => ([c], [])
        end
      else let '(r, k) := string_raw rest in (c :: r, k)
  end.

Definition number_char (c : byte) : bool :=
  isDigit c || eqc c "-" || eqc c "+" || eqc c "." || eqc c "e" || eqc c "E".

Fixpoint number_raw (data : list byte) : list byte * list byte :=
  match data with
  | c :: rest =>
      if number_char c then let '(r, k) := number_raw rest in (c :: r, k) else ([], data)
  | [] => ([], [])
  end.

Definition hex_value (c : byte) : N :=
  let n := Byte.to_N c in
  (if between "0" c "9" then n - 48
   else if between "a" c "f" then n - 87
   else n - 55)%N.

(** [getu4]: the code unit of four hex digits. *)
Definition getu4 (a b c d : byte) : N :=
  (((hex_value a * 16 + hex_value b) * 16 + hex_value c) * 16 + hex_value d)%N.

Definition byte_of (n : N) : byte := default x00 (Byte.of_N n).

(** [utf8.EncodeRune]. *)
Definition EncodeRune (r : N) : list byte :=
  (if r <? 128 then [byte_of r]
   else if r <? 2048 then [byte_of (192 + r / 64); byte_of (128 + r mod 64)]
   else if r <? 65536 then
     [byte_of (224 + r / 4096); byte_of (128 + (r / 64) mod 64); byte_of (128 + r mod 64)]
   else
     [byte_of (240 + r / 262144); byte_of (128 + (r / 4096) mod 64);
      byte_of (128 + (r / 64) mod 64); byte_of (128 + r mod 64)])%N.

Definition ReplacementChar : N := 65533%N.

Definition IsSurrogate (r : N) : bool := ((55296 <=? r) && (r <? 57344))%N.

(** [utf16.DecodeRune]. *)
Definition DecodeRune (r1 r2 : N) : N :=
  (if (55296 <=? r1) && (r1 <? 56320) && (56320 <=? r2) && (r2 <? 57344)
   then (r1 - 55296) * 1024 + (r2 - 56320) + 65536
   else ReplacementChar)%N.

Definition simple_escape (c : byte) : byte :=
  if eqc c "b" then x08
  else if eqc c "f" then x0c
  else if eqc c "n" then x0a
  else if eqc c "r" then x0d
  else if eqc c "t" then x09
  else c.

(** [unquote]: the text of a string literal. *)
Fixpoint unquote (fuel : nat) (raw : list byte) : list byte :=
  match fuel with
  | 0 => []
  | S fuel =>
      match raw with
      | [] => []
      | c :: rest =>
          if eqc c "\" then
            match rest with
            | e :: h1 :: h2 :: h3 :: h4 :: rest' =>
                if eqc e "u" then
                  let rr := getu4 h1 h2 h3 h4 in
                  if IsSurrogate rr then
                    match rest' with
                    | b :: u :: k1 :: k2 :: k3 :: k4 :: rest'' =>
                        let dec :=
                          if eqc b "\" && eqc u "u" && isHex k1 && isHex k2 && isHex k3 && isHex k4
                          then DecodeRune rr (getu4 k1 k2 k3 k4) else ReplacementChar in
                        if (dec =? ReplacementChar)%N
                        then EncodeRune ReplacementChar ++ unquote fuel rest'
                        else EncodeRune dec ++ unquote fuel rest''
                    | _ => EncodeRune ReplacementChar ++ unquote fuel rest'
                    end
                  else EncodeRune rr ++ unquote fuel rest'
                else simple_escape e :: unquote fuel (h1 :: h2 :: h3 :: h4 :: rest')
            | e :: rest' => simple_escape e :: unquote fuel rest'
            | [] => []
            end
          else c :: unquote fuel rest
      end
  end.

Section Loops.

Variable parse_value : list byte -> option (value * list byte).

Fixpoint elements (fuel : nat) (data : list byte) : option (list value * list byte) :=
  match fuel with
  | 0 => None
  | S fuel =>
      match skip_space data with
      | [] => None
      | c :: rest =>
          if eqc c "]" then Some ([], rest)
          else if eqc c "," then elements fuel rest
          else
            match parse_value (c :: rest) with
            | Some (v, rest') =>
                match elements fuel rest' with
                | Some (vs, rest'') => Some (v :: vs, rest'')
                | None => None
                end
            | None => None
            end
      end
  end.

Fixpoint members (fuel : nat) (data : list byte)
    : option (list (list byte * value) * list byte) :=
  match fuel with
  | 0 => None
  | S fuel =>
      match skip_space data with
      | [] => None
      | c :: rest =>
          if eqc c "}" then Some ([], rest)
          else if eqc c "," then members fuel rest
          else if eqc c dquote then
            let '(raw, rest1) := string_raw rest in
            match skip_space rest1 with
            | colon :: rest2 =>
                match parse_value rest2 with
                | Some (v, rest3) =>
                    match members fuel rest3 with
                    | Some (ms, rest4) =>
                        Some ((unquote (List.length raw) raw, v) :: ms, rest4)
                    | None => None
                    end
                | None => None
                end
            | [] => None
            end
          else None
      end
  end.

End Loops.

Fixpoint parse_value (fuel : nat) (data : list byte) : option (value * list byte) :=
  match fuel with
  | 0 => None
  | S fuel =>
      match skip_space data with
      | [] => None
      | c :: rest =>
          if eqc c "{" then
            match members (parse_value fuel) (S (List.length rest)) rest with
            | Some (ms, k) => Some (Object ms, k)
            | None => None
            end
          else if eqc c "[" then
            match elements (parse_value fuel) (S (List.length rest)) rest with
            | Some (vs, k) => Some (Array vs, k)
            | None => None
            end
          else if eqc c dquote then
            let '(raw, k) := string_raw rest in
            Some (String (unquote (List.length raw) raw), k)
          else if eqc c "t" then Some (Bool true, drop 3 rest)
          else if eqc c "f" then Some (Bool false, drop 4 rest)
          else if eqc c "n" then Some (Null, drop 3 rest)
          else
            let '(raw, k) := number_raw (c :: rest) in
            match raw with
            | [] => None
            | _ => Some (Number raw, k)
            end
      end
  end.

Definition parse (data : list byte) : option value :=
  option_map fst (parse_value (S (List.length data)) data).

(** How [UnmarshalTypeError] names the kind of a JSON value. *)
Definition kind (v : value) : string :=
  match v with
  | Null => "null"
  | Bool _ => "bool"
  | Number _ => "number"
  | String _ => "string"
  | Array _ => "array"
  | Object _ => "object"
  end.

End json.

Record MyType : Type := mkMyType { SomeField : string }.

Module MyTypeDecoder.

Definition lower (c : byte) : byte :=
  if scanner.between "A" c "Z" then json.byte_of (Byte.to_N c + 32)%N else c.

Fixpoint equal_fold (a b : list byte) : bool :=
  match a, b with
  | [], [] => true
  | c :: a', d :: b' => Byte.eqb (lower c) (lower d) && equal_fold a' b'
  | _, _ => false
  end.

(** The key names the field [SomeField]. *)
Definition names_SomeField (key : list byte) : bool :=
  equal_fold key (list_byte_of_string "SomeField").

(** [d.saveError]: the first error is kept. *)
Definition saveError (saved : option error) (e : error) : option error :=
  match saved with
  | Some _ => saved
  | None => Some e
  end.

(** The store of one member value into [SomeField]. *)
Definition store (v : json.value) (x : MyType) (saved : option error)
    : MyType * option error :=
  match v with
  | json.String s => ({| SomeField := string_of_list_byte s |}, saved)
  | json.Null => (x, saved)
  | _ => (x, saveError saved (UnmarshalTypeError (json.kind v) "SomeField"))
  end.

Fixpoint object (ms : list (list byte * json.value)) (x : MyType) (saved : option error)
    : MyType * option error :=
  match ms with
  | [] => (x, saved)
  | (key, v) :: ms' =>
      if names_SomeField key
      then let '(x', saved') := store v x saved in object ms' x' saved'
      else object ms' x saved
  end.

(** [d.unmarshal(v)] for [v : *MyType]. *)
Definition unmarshal_value (data : list byte) (x : MyType) : MyType * option error :=
  match json.parse data with
  | Some (json.Object ms) => object ms x None
  | Some json.Null => (x, None)
  | Some v => (x, Some (UnmarshalTypeError (json.kind v) ""))
  | None => (x, None)
  end.

End MyTypeDecoder.

(* ------------------------------------------------------------------ *)
(** * What the properties are stated with *)

(** [m] adds no call of the kind [obs] picks to the trace: a callback
    that does not re-enter the callback it was reached through, code
    that closes nothing, and so on. *)
Definition keeps {T A B} (obs : list Event -> list B) (m : M T A) : Prop :=
  forall s, obs (trace (snd (m s))) = obs (trace s).

(** [m] returns: it does not panic. *)
Definition returns {T A} (m : M T A) : Prop :=
  forall s, exists a s', m s = (Normal a, s').

(** The state a body is in when a response arrives: open, with [data]
    left to read and no read error ahead. *)
Definition readable {T} (s : State T) (b : handle) (data : list byte) : Prop :=
  closed (stream_at s b) = false /\
  failure (stream_at s b) = None /\
  content (stream_at s b) = data.

(** The document [{"SomeField":"x"}], byte by byte. *)
Definition SomeField_x : list byte :=
  list_byte_of_string
    ("{" ++ String scanner.dquote "SomeField" ++ String scanner.dquote ":"
         ++ String scanner.dquote "x" ++ String scanner.dquote "}")%string.

(** Concrete clients, callbacks and states to run the code on. *)
Module Sample.

Definition r0 : Response := {| StatusCode := 200; Body := 0 |}.
Definition r302 : Response := {| StatusCode := 302; Body := 1 |}.

Definition timeout : error := errorString "net/http: request canceled".
Definition refused : error := errorString "stopped after 10 redirects".
Definition bad_url : error := errorString "parse :: missing protocol scheme".

Definition stream_of (data : list byte) : Stream :=
  {| content := data; failure := None; closed := false; closes := 0 |}.

Definition torn (data : list byte) (e : error) : Stream :=
  {| content := data; failure := Some e; closed := false; closes := 0 |}.

(** A state with one decode target at address 0 and the body [st] under
    the handle 0. *)
Definition with_body (st : Stream) : State MyType :=
  {| streams := {[ 0 := st ]};
     cells := {[ 0 := {| SomeField := "old" |} ]};
     log := [];
     stack := list_byte_of_string "goroutine 7 [running]:";
     trace := [] |}.

Definition start : State MyType := with_body empty_stream.

(** A transport that answers every request with [r0] and leaves [data]
    to read in its body. *)
Definition serving (data : list byte) : Client MyType :=
  {| Do := fun _ s => (Normal (Some r0, None), set_streams (<[0 := stream_of data]> (streams s)) s) |}.


(** A client whose CheckRedirect fails: [Do] returns the last response,
    its body already closed, together with the error. *)
Definition refusing : Client MyType :=
  {| Do := fun _ s =>
       (Normal (Some r302, Some refused),
        set_streams
          (<[1 := {| content := []; failure := None; closed := true; closes := 1 |}]>
             (streams s)) s) |}.

Definition NewRequest (c : Context) (method url : string) (body : option (list byte))
    : option HttpRequest * option error :=
  if String.eqb url "::" then (None, Some bad_url)
  else (Some {| Method := method; URL := url; ctx := c; RequestBody := body |}, None).

Definition ignore : Callback MyType := fun _ _ => ret tt.
Definition ignore_text : TextCallback MyType := fun _ _ => ret tt.
Definition ignore_err : ErrCallback MyType := fun _ => ret tt.
Definition crash : Callback MyType := fun _ _ => panic (VString "boom").

Definition hello : list byte := list_byte_of_string "hello world".
Definition document : list byte := SomeField_x.
Definition not_json : list byte := list_byte_of_string "not-json".

End Sample.

(* ------------------------------------------------------------------ *)
(** * Properties *)

Local Open Scope list_scope.

Section Properties.

Context {T : Type}.
Variable unmarshal_value : list byte -> T -> T * option error.

Implicit Types (s : State T) (f : Callback T) (client : Client T).
Implicit Types (res : option Response) (err : option error) (r : Response).

(** ** The scanner on a few documents *)

Example checkValid_not_json :
  scanner.checkValid (list_byte_of_string "not-json") =
    Some (SyntaxError (InvalidCharacter "o" "in literal null (expecting 'u')") 2).
Proof. vm_compute. reflexivity. Qed.

Example checkValid_document : scanner.checkValid SomeField_x = None.
Proof. vm_compute. reflexivity. Qed.

Example checkValid_nested :
  scanner.checkValid (list_byte_of_string " [1, -2.5e+3, true, null, {}, [[]]] ") = None.
Proof. vm_compute. reflexivity. Qed.

Example checkValid_empty :
  scanner.checkValid [] = Some (SyntaxError UnexpectedEnd 0).
Proof. vm_compute. reflexivity. Qed.

Example checkValid_trailing :
  scanner.checkValid (list_byte_of_string "[1,2]x") =
    Some (SyntaxError (InvalidCharacter "x" "after top-level value") 6).
Proof. vm_compute. reflexivity. Qed.

Example unmarshal_document x :
  MyTypeDecoder.unmarshal_value SomeField_x x = ({| SomeField := "x" |}, None).
Proof. vm_compute. reflexivity. Qed.

(** ** Traces *)

Lemma trace_record e s : trace (record e s) = trace s ++ [e].
Proof. reflexivity. Qed.

Lemma callbacks_record_callback res err s :
  callbacks (trace (record (EvCallback res err) s)) = callbacks (trace s) ++ [(res, err)].
Proof. unfold callbacks. rewrite trace_record, omap_app. reflexivity. Qed.

Lemma texts_record_text t err s :
  texts (trace (record (EvText t err) s)) = texts (trace s) ++ [(t, err)].
Proof. unfold texts. rewrite trace_record, omap_app. reflexivity. Qed.

Lemma jsons_record_json err s :
  jsons (trace (record (EvJSON err) s)) = jsons (trace s) ++ [err].
Proof. unfold jsons. rewrite trace_record, omap_app. reflexivity. Qed.

Lemma closings_record_close b s :
  closings (trace (record (EvClose b) s)) = closings (trace s) ++ [b].
Proof. unfold closings. rewrite trace_record, omap_app. reflexivity. Qed.

(** An event of another kind leaves the calls of a kind as they were. *)
Lemma omap_record {B} (pick : Event -> option B) e s :
  pick e = None -> omap pick (trace (record e s)) = omap pick (trace s).
Proof.
  intros H. rewrite trace_record, omap_app. simpl. rewrite H. apply app_nil_r.
Qed.

(** ** The library calls *)

Lemma stream_at_insert (m : gmap handle Stream) b st s :
  stream_at (set_streams (<[b := st]> m) s) b = st.
Proof. unfold stream_at. simpl. rewrite lookup_insert_eq. reflexivity. Qed.

Lemma ReadAll_readable s b data :
  readable s b data ->
  exists s', ioutil_ReadAll b s = (Normal (data, None), s') /\
    cells s' = cells s /\ log s' = log s /\
    trace s' = trace s ++ [EvReadAll b].
Proof.
  intros (Hopen & Hfail & Hdata). unfold ioutil_ReadAll.
  rewrite Hopen, Hfail, Hdata. eexists. split; [reflexivity |]. auto.
Qed.

Lemma ReadAll_frame s b :
  cells (snd (ioutil_ReadAll b s)) = cells s /\
  trace (snd (ioutil_ReadAll b s)) = trace s ++ [EvReadAll b].
Proof. unfold ioutil_ReadAll. destruct (closed (stream_at s b)); auto. Qed.

Lemma ReadAll_returns s b :
  exists buf e, fst (ioutil_ReadAll b s) = Normal (buf, e).
Proof. unfold ioutil_ReadAll. destruct (closed (stream_at s b)); simpl; eauto. Qed.

Lemma Unmarshal_returns data v s :
  exists e, fst (json_Unmarshal unmarshal_value data v s) = Normal e.
Proof.
  unfold json_Unmarshal. destruct (scanner.checkValid data); simpl; eauto.
  destruct (v ≫= _) as [[a x]|]; simpl; eauto.
  destruct (unmarshal_value data x); simpl; eauto.
Qed.

Lemma Unmarshal_trace data v s :
  trace (snd (json_Unmarshal unmarshal_value data v s)) = trace s ++ [EvUnmarshal data].
Proof.
  unfold json_Unmarshal. destruct (scanner.checkValid data); simpl; auto.
  destruct (v ≫= _) as [[a x]|]; simpl; auto.
  destruct (unmarshal_value data x); simpl; auto.
Qed.

(** An invalid document is turned down before anything is stored. *)
Lemma Unmarshal_invalid data v s e :
  scanner.checkValid data = Some e ->
  json_Unmarshal unmarshal_value data v s = (Normal (Some e), record (EvUnmarshal data) s).
Proof. intros H. unfold json_Unmarshal. rewrite H. reflexivity. Qed.

Lemma Unmarshal_valid data a x s :
  scanner.checkValid data = None ->
  cells s !! a = Some x ->
  json_Unmarshal unmarshal_value data (Some a) s =
    (Normal (snd (unmarshal_value data x)),
     set_cells (<[a := fst (unmarshal_value data x)]> (cells s)) (record (EvUnmarshal data) s)).
Proof.
  intros Hv Ha. unfold json_Unmarshal. rewrite Hv. simpl. rewrite Ha. simpl.
  destruct (unmarshal_value data x). reflexivity.
Qed.

(** ** The panic handler *)

Lemma GlobalPanicHandler_nil s : GlobalPanicHandler None s = (None, s).
Proof. reflexivity. Qed.

Lemma GlobalPanicHandler_panic v s :
  GlobalPanicHandler (Some v) s =
    (None, log_Println [v; VString (string_of_list_byte (debug_Stack s))] s).
Proof. reflexivity. Qed.

Lemma GlobalPanicHandler_stops inflight s : fst (GlobalPanicHandler inflight s) = None.
Proof. destruct inflight; reflexivity. Qed.

Lemma GlobalPanicHandler_frame inflight s :
  trace (snd (GlobalPanicHandler inflight s)) = trace s /\
  streams (snd (GlobalPanicHandler inflight s)) = streams s /\
  cells (snd (GlobalPanicHandler inflight s)) = cells s.
Proof. destruct inflight; auto. Qed.

(** ** The goroutine of [Request], path by path *)

Lemma Request_func_failed client request f s res e s1 :
  Do client request s = (Normal (res, Some e), s1) ->
  run_func (Request_func client request f) s =
    GlobalPanicHandler (panic_of (fst (call f res (Some e) s1)))
                       (snd (call f res (Some e) s1)).
Proof.
  intros HDo. unfold run_func, Request_func, fbind, defer, lift. simpl.
  rewrite HDo. simpl.
  destruct (call f res (Some e) s1) as [[[]|v] s2]; reflexivity.
Qed.

Lemma Request_func_answered client request f s r s1 :
  Do client request s = (Normal (Some r, None), s1) ->
  run_func (Request_func client request f) s =
    GlobalPanicHandler (panic_of (fst (call f (Some r) None s1)))
                       (snd (Body_Close (Body r) (snd (call f (Some r) None s1)))).
Proof.
  intros HDo. unfold run_func, Request_func, fbind, defer, lift. simpl.
  rewrite HDo. simpl.
  destruct (call f (Some r) None s1) as [[[]|v] s2]; reflexivity.
Qed.

Lemma Request_func_nothing client request f s s1 :
  Do client request s = (Normal (None, None), s1) ->
  run_func (Request_func client request f) s = GlobalPanicHandler (Some nil_dereference) s1.
Proof.
  intros HDo. unfold run_func, Request_func, fbind, defer, lift. simpl.
  rewrite HDo. reflexivity.
Qed.

Lemma Request_func_Do_panics client request f s v s1 :
  Do client request s = (Panicking v, s1) ->
  run_func (Request_func client request f) s = GlobalPanicHandler (Some v) s1.
Proof.
  intros HDo. unfold run_func, Request_func, fbind, defer, lift. simpl.
  rewrite HDo. reflexivity.
Qed.

(** No goroutine of [Request] dies of a panic: the process goes on. *)
Lemma Request_func_contained client request f s :
  fst (run_func (Request_func client request f) s) = None.
Proof.
  destruct (Do client request s) as [[[res [e|]]|v] s1] eqn:HDo.
  - erewrite Request_func_failed by eassumption. apply GlobalPanicHandler_stops.
  - destruct res as [r|].
    + erewrite Request_func_answered by eassumption. apply GlobalPanicHandler_stops.
    + erewrite Request_func_nothing by eassumption. apply GlobalPanicHandler_stops.
  - erewrite Request_func_Do_panics by eassumption. apply GlobalPanicHandler_stops.
Qed.

(** However many requests are in flight and whatever their callbacks
    do, running their goroutines never stops the process. *)
Lemma Request_goroutines_contained (gs : list (Goroutine T)) s :
  Forall (fun g => exists client request f, g = run_func (Request_func client request f)) gs ->
  fst (run_goroutines gs s) = None.
Proof.
  intros Hgs. revert s. induction Hgs as [| g gs (client & request & f & ->) _ IH]; intros s.
  - reflexivity.
  - simpl. pose proof (Request_func_contained client request f s) as Hg.
    destruct (run_func (Request_func client request f) s) as [[v|] s']; [discriminate |].
    apply IH.
Qed.

(** ** The decoders, path by path *)

Lemma AsText_upstream (g : TextCallback T) res e s :
  AsText g res (Some e) s = g "" (Some e) (record (EvText "" (Some e)) s).
Proof. reflexivity. Qed.

Lemma AsText_read_failed (g : TextCallback T) r s buf e s1 :
  ioutil_ReadAll (Body r) s = (Normal (buf, Some e), s1) ->
  AsText g (Some r) None s = g "" (Some e) (record (EvText "" (Some e)) s1).
Proof. intros H. unfold AsText, bind, deref, ret. rewrite H. reflexivity. Qed.

Lemma AsText_read (g : TextCallback T) r s buf s1 :
  ioutil_ReadAll (Body r) s = (Normal (buf, None), s1) ->
  AsText g (Some r) None s =
    g (string_of_list_byte buf) None (record (EvText (string_of_list_byte buf) None) s1).
Proof. intros H. unfold AsText, bind, deref, ret. rewrite H. reflexivity. Qed.

Lemma AsText_nil (g : TextCallback T) s :
  AsText g None None s = (Panicking nil_dereference, s).
Proof. reflexivity. Qed.

Lemma AsJSON_upstream v (h : ErrCallback T) res e s :
  AsJSON unmarshal_value v h res (Some e) s = h (Some e) (record (EvJSON (Some e)) s).
Proof. reflexivity. Qed.

Lemma AsJSON_read_failed v (h : ErrCallback T) r s buf e s1 :
  ioutil_ReadAll (Body r) s = (Normal (buf, Some e), s1) ->
  AsJSON unmarshal_value v h (Some r) None s = h (Some e) (record (EvJSON (Some e)) s1).
Proof. intros H. unfold AsJSON, bind, deref, ret. rewrite H. reflexivity. Qed.

Lemma AsJSON_read v (h : ErrCallback T) r s buf s1 e s2 :
  ioutil_ReadAll (Body r) s = (Normal (buf, None), s1) ->
  json_Unmarshal unmarshal_value buf v s1 = (Normal e, s2) ->
  AsJSON unmarshal_value v h (Some r) None s = h e (record (EvJSON e) s2).
Proof.
  intros H1 H2. unfold AsJSON, bind, deref, ret. rewrite H1. simpl. rewrite H2.
  destruct e; reflexivity.
Qed.

Lemma AsJSON_nil v (h : ErrCallback T) s :
  AsJSON unmarshal_value v h None None s = (Panicking nil_dereference, s).
Proof. reflexivity. Qed.

(** The three ways [AsJSON] reaches its callback, which is every way it
    ends when a nil error comes with a response. *)
Lemma AsJSON_paths v (h : ErrCallback T) res err s :
  (err = None -> res <> None) ->
  exists e s1,
    AsJSON unmarshal_value v h res err s = h e (record (EvJSON e) s1) /\
    ((exists u, err = Some u /\ e = Some u /\ s1 = s) \/
     (exists r buf re, err = None /\ res = Some r /\ e = Some re /\
        ioutil_ReadAll (Body r) s = (Normal (buf, Some re), s1)) \/
     (exists r buf s', err = None /\ res = Some r /\
        ioutil_ReadAll (Body r) s = (Normal (buf, None), s') /\
        json_Unmarshal unmarshal_value buf v s' = (Normal e, s1))).
Proof.
  intros Hres. destruct err as [u|].
  - exists (Some u), s. split; [apply AsJSON_upstream | left; eauto].
  - destruct res as [r|]; [| now destruct Hres].
    destruct (ioutil_ReadAll (Body r) s) as [o s'] eqn:Hread.
    destruct (ReadAll_returns s (Body r)) as (buf & re & Ho).
    rewrite Hread in Ho. simpl in Ho. subst o. destruct re as [re|].
    + exists (Some re), s'. split; [eapply AsJSON_read_failed; eauto |].
      right; left. exists r, buf, re. auto.
    + destruct (json_Unmarshal unmarshal_value buf v s') as [o s2] eqn:Hdec.
      destruct (Unmarshal_returns buf v s') as (e & He).
      rewrite Hdec in He. simpl in He. subst o.
      exists e, s2. split; [eapply AsJSON_read; eauto |].
      right; right. exists r, buf, s'. auto.
Qed.

(** [AsText] and [AsJSON] close nothing themselves. *)
Lemma AsText_closes_nothing (g : TextCallback T) res err :
  (forall t e, keeps closings (g t e)) -> keeps closings (AsText g res err).
Proof.
  intros Hg s. destruct err as [u|].
  - rewrite AsText_upstream, Hg. apply (omap_record close_of). reflexivity.
  - destruct res as [r|]; [| reflexivity].
    destruct (ioutil_ReadAll (Body r) s) as [o s1] eqn:Hread.
    destruct (ReadAll_returns s (Body r)) as (buf & re & Ho).
    destruct (ReadAll_frame s (Body r)) as [_ Ht].
    rewrite Hread in Ho, Ht. simpl in Ho, Ht. subst o.
    assert (closings (trace s1) = closings (trace s)) as Hs1.
    { rewrite Ht. unfold closings. rewrite omap_app. apply app_nil_r. }
    destruct re as [re|].
    + erewrite AsText_read_failed by eassumption.
      rewrite Hg, (omap_record close_of) by reflexivity. exact Hs1.
    + erewrite AsText_read by eassumption.
      rewrite Hg, (omap_record close_of) by reflexivity. exact Hs1.
Qed.

Lemma AsJSON_closes_nothing v (h : ErrCallback T) res err :
  (forall e, keeps closings (h e)) -> keeps closings (AsJSON unmarshal_value v h res err).
Proof.
  intros Hh s. destruct res as [r|], err as [u|]; try reflexivity;
    try (rewrite AsJSON_upstream, Hh; apply (omap_record close_of); reflexivity).
  destruct (AsJSON_paths v h (Some r) None s) as (e & s1 & Heq & Hpath); [discriminate |].
  rewrite Heq, Hh, (omap_record close_of) by reflexivity.
  destruct Hpath as [(u & Hu & _) | [(r' & buf & re & _ & Hr & _ & Hread)
                                     | (r' & buf & s' & _ & Hr & Hread & Hdec)]].
  - discriminate.
  - injection Hr as <-. destruct (ReadAll_frame s (Body r)) as [_ Ht].
    rewrite Hread in Ht. simpl in Ht. rewrite Ht.
    unfold closings. rewrite omap_app. apply app_nil_r.
  - injection Hr as <-. destruct (ReadAll_frame s (Body r)) as [_ Ht].
    rewrite Hread in Ht. simpl in Ht.
    pose proof (Unmarshal_trace buf v s') as Hu. rewrite Hdec in Hu. simpl in Hu.
    rewrite Hu, Ht. unfold closings. rewrite !omap_app. simpl. rewrite !app_nil_r.
    reflexivity.
Qed.

End Properties.

(* ------------------------------------------------------------------ *)
(** * The dispatcher *)

(** Whatever [Do] returns next to a non-nil error, [Request] hands both
    values to the callback as they are, once, and closes nothing. *)
Lemma Request_error_passes_through {T} (client : Client T) request (f : Callback T)
    (s : State T) res e s1 :
  Do client request s = (Normal (res, Some e), s1) ->
  callbacks (trace s1) = callbacks (trace s) ->
  (forall res' err', keeps callbacks (f res' err')) ->
  exists o s2 s3,
    f res (Some e) (record (EvCallback res (Some e)) s1) = (o, s2) /\
    run_func (Request_func client request f) s = (None, s3) /\
    callbacks (trace s3) = callbacks (trace s) ++ [(res, Some e)] /\
    closings (trace s3) = closings (trace s2).
Proof.
  intros HDo Hquiet Hf.
  destruct (f res (Some e) (record (EvCallback res (Some e)) s1)) as [o s2] eqn:Hcall.
  exists o, s2, (snd (GlobalPanicHandler (panic_of o) s2)). split; [reflexivity |].
  assert (run_func (Request_func client request f) s = GlobalPanicHandler (panic_of o) s2) as Hrun.
  { erewrite Request_func_failed by eassumption. unfold call. rewrite Hcall. reflexivity. }
  destruct (GlobalPanicHandler_frame (panic_of o) s2) as (Ht & _ & _).
  split; [| split].
  - rewrite Hrun. pose proof (GlobalPanicHandler_stops (panic_of o) s2) as Hstop.
    destruct (GlobalPanicHandler (panic_of o) s2) as [p s3]. simpl in Hstop. now subst p.
  - rewrite Ht. specialize (Hf res (Some e) (record (EvCallback res (Some e)) s1)).
    rewrite Hcall in Hf. cbn [snd] in Hf.
    rewrite Hf, callbacks_record_callback, Hquiet. reflexivity.
  - rewrite Ht. reflexivity.
Qed.


(** C2: when the construction of the GET request fails, [Get] invokes
    the callback on the calling thread with a nil response and the
    construction error and starts no goroutine; when it succeeds, [Get]
    hands the request built from a background context, the method GET,
    the URL and no body to [Request] with the default client, which
    starts one goroutine and returns. *)
Theorem Get_construction {T} (http_DefaultClient : Client T)
    (http_NewRequestWithContext :
       Context -> string -> string -> option (list byte) -> option HttpRequest * option error)
    (url : string) (f : Callback T) (s : State T) :
  (forall req e,
     http_NewRequestWithContext context_Background "GET" url None = (req, Some e) ->
     exists o s',
       f None (Some e) (record (EvCallback None (Some e)) s) = (o, s') /\
       Get http_DefaultClient http_NewRequestWithContext url f s = (o, s', []))
  /\
  (forall req,
     http_NewRequestWithContext context_Background "GET" url None = (req, None) ->
     Get http_DefaultClient http_NewRequestWithContext url f s =
       Request http_DefaultClient req f s /\
     Get http_DefaultClient http_NewRequestWithContext url f s =
       (Normal tt, s, [run_func (Request_func http_DefaultClient req f)])).
Proof.
  split.
  - intros req e Hnew. unfold Get. rewrite Hnew. unfold here, call.
    destruct (f None (Some e) (record (EvCallback None (Some e)) s)) as [o s'].
    exists o, s'. split; reflexivity.
  - intros req Hnew. unfold Get. rewrite Hnew. split; reflexivity.
Qed.

(** C6, as the code has it: when [Do] answers with a response and no
    error, the goroutine of [Request] closes the body of that response
    exactly once, as its last action before the panic handler, whether
    the callback returned or panicked and whether or not the callback
    read the body; [AsText] and [AsJSON] read the body and never close
    it. *)
Theorem Request_closes_body {T} (unmarshal_value : list byte -> T -> T * option error)
    (client : Client T) request (f : Callback T) (s : State T) r s1 o s2 :
  Do client request s = (Normal (Some r, None), s1) ->
  f (Some r) None (record (EvCallback (Some r) None) s1) = (o, s2) ->
  (exists s3,
     run_func (Request_func client request f) s = (None, s3) /\
     closings (trace s3) = closings (trace s2) ++ [Body r] /\
     closed (stream_at s3 (Body r)) = true /\
     closes (stream_at s3 (Body r)) = S (closes (stream_at s2 (Body r))))
  /\
  (forall (g : TextCallback T) res err,
     (forall t e, keeps closings (g t e)) -> keeps closings (AsText g res err))
  /\
  (forall v (h : ErrCallback T) res err,
     (forall e, keeps closings (h e)) -> keeps closings (AsJSON unmarshal_value v h res err)).
Proof.
  intros HDo Hcall. split; [| split].
  - exists (snd (GlobalPanicHandler (panic_of o) (snd (Body_Close (Body r) s2)))).
    assert (run_func (Request_func client request f) s =
            GlobalPanicHandler (panic_of o) (snd (Body_Close (Body r) s2))) as Hrun.
    { erewrite Request_func_answered by eassumption. unfold call. rewrite Hcall. reflexivity. }
    destruct (GlobalPanicHandler_frame (panic_of o) (snd (Body_Close (Body r) s2)))
      as (Ht & Hs & _).
    split; [| split; [| split]].
    + rewrite Hrun.
      pose proof (GlobalPanicHandler_stops (panic_of o) (snd (Body_Close (Body r) s2))) as Hstop.
      destruct (GlobalPanicHandler _ _) as [p s3]. simpl in Hstop. now subst p.
    + rewrite Ht. unfold Body_Close. simpl. unfold closings. rewrite omap_app. reflexivity.
    + unfold stream_at. rewrite Hs. unfold Body_Close. simpl.
      rewrite lookup_insert_eq. reflexivity.
    + unfold stream_at at 1. rewrite Hs. unfold Body_Close. simpl.
      rewrite lookup_insert_eq. reflexivity.
  - intros g res err. apply AsText_closes_nothing.
  - intros v h res err. apply AsJSON_closes_nothing.
Qed.

(** C7: with no panic in flight the handler changes nothing and logs
    nothing; with a panic in flight it stops the panic, writes exactly
    one line, made of the value of the panic and the stack trace, and
    touches nothing else: no callback is invoked, nothing is read or
    closed.  It never leaves a panic in flight, so no goroutine of
    [Request] dies of one. *)
Theorem GlobalPanicHandler_boundary {T} (s : State T) :
  GlobalPanicHandler None s = (None, s) /\
  (forall v, exists s',
     GlobalPanicHandler (Some v) s = (None, s') /\
     log s' = log s ++ [[v; VString (string_of_list_byte (debug_Stack s))]] /\
     trace s' = trace s /\ streams s' = streams s /\ cells s' = cells s) /\
  (forall inflight, fst (GlobalPanicHandler inflight s) = None) /\
  (forall (client : Client T) request f,
     fst (run_func (Request_func client request f) s) = None).
Proof.
  split; [reflexivity |]. split; [| split].
  - intros v. eexists. split; [reflexivity |]. auto.
  - intros inflight. apply GlobalPanicHandler_stops.
  - intros client request f. apply Request_func_contained.
Qed.

(* ------------------------------------------------------------------ *)
(** * The decoders *)


(** C4: with a non-nil upstream error the callback [AsText] returns
    forwards the empty text and that error at once: the inner callback
    runs in the state the outer one was entered in, with nothing read,
    nothing closed and the response not looked at.  When reading the body
    fails it forwards the empty text and the read error. *)
Theorem AsText_errors {T} (g : TextCallback T) res err (s : State T) :
  (forall e, err = Some e ->
     AsText g res err s = g "" (Some e) (record (EvText "" (Some e)) s))
  /\
  (forall r buf e s1, err = None -> res = Some r ->
     ioutil_ReadAll (Body r) s = (Normal (buf, Some e), s1) ->
     AsText g res err s = g "" (Some e) (record (EvText "" (Some e)) s1)).
Proof.
  split.
  - intros e ->. apply AsText_upstream.
  - intros r buf e s1 -> -> Hread. eapply AsText_read_failed; eauto.
Qed.


(** C8: for a body holding the bytes [not-json], the callback [AsJSON]
    returns delivers a non-nil error to its inner callback, and at that
    point every decode target is as it was: nothing was stored. *)
Theorem AsJSON_not_json {T} (unmarshal_value : list byte -> T -> T * option error)
    v (h : ErrCallback T) r (s : State T) :
  readable s (Body r) (list_byte_of_string "not-json") ->
  exists e s1,
    AsJSON unmarshal_value v h (Some r) None s = h (Some e) (record (EvJSON (Some e)) s1) /\
    cells s1 = cells s.
Proof.
  intros Hbody.
  destruct (ReadAll_readable s (Body r) _ Hbody) as (s' & Hread & Hcells & _).
  eexists _, _. split.
  - eapply AsJSON_read; [exact Hread |].
    apply Unmarshal_invalid. vm_compute. reflexivity.
  - exact Hcells.
Qed.

(** C9: when the upstream error is non-nil, or reading the body fails,
    the callback [AsJSON] returns forwards that error with every decode
    target unchanged and without a call of [json.Unmarshal]. *)
Theorem AsJSON_leaves_target {T} (unmarshal_value : list byte -> T -> T * option error)
    v (h : ErrCallback T) res err (s : State T) e :
  err = Some e \/
  (exists r buf, err = None /\ res = Some r /\
     fst (ioutil_ReadAll (Body r) s) = Normal (buf, Some e)) ->
  exists s1,
    AsJSON unmarshal_value v h res err s = h (Some e) (record (EvJSON (Some e)) s1) /\
    cells s1 = cells s /\
    unmarshals (trace (record (EvJSON (Some e)) s1)) = unmarshals (trace s).
Proof.
  intros [-> | (r & buf & -> & -> & Hread)].
  - exists s. split; [apply AsJSON_upstream |]. split; [reflexivity |].
    apply (omap_record unmarshal_of). reflexivity.
  - destruct (ioutil_ReadAll (Body r) s) as [o s1] eqn:Heq. simpl in Hread. subst o.
    exists s1. split; [eapply AsJSON_read_failed; eauto |].
    destruct (ReadAll_frame s (Body r)) as [Hc Ht]. rewrite Heq in Hc, Ht. simpl in Hc, Ht.
    split; [exact Hc |].
    rewrite (omap_record unmarshal_of) by reflexivity.
    rewrite Ht. unfold unmarshals. rewrite omap_app. apply app_nil_r.
Qed.

(** C10: called with a nil response and a nil error, the callbacks
    [AsText] and [AsJSON] return panic on the nil pointer, before any
    read and without a call of the inner callback.  Under the
    precondition that a nil error comes with a response, they return
    whenever the inner callback does. *)
Theorem decoders_need_a_response {T} (unmarshal_value : list byte -> T -> T * option error)
    (g : TextCallback T) v (h : ErrCallback T) (s : State T) :
  AsText g None None s = (Panicking nil_dereference, s) /\
  AsJSON unmarshal_value v h None None s = (Panicking nil_dereference, s) /\
  (forall res err, (err = None -> res <> None) ->
     (forall t e, returns (g t e)) ->
     exists s', AsText g res err s = (Normal tt, s')) /\
  (forall res err, (err = None -> res <> None) ->
     (forall e, returns (h e)) ->
     exists s', AsJSON unmarshal_value v h res err s = (Normal tt, s')).
Proof.
  split; [reflexivity |]. split; [reflexivity |]. split.
  - intros res err Hres Hg. destruct err as [u|].
    + rewrite AsText_upstream. destruct (Hg "" (Some u) (record (EvText "" (Some u)) s))
        as ([] & s' & ->). eauto.
    + destruct res as [r|]; [| now destruct Hres].
      destruct (ioutil_ReadAll (Body r) s) as [o s1] eqn:Hread.
      destruct (ReadAll_returns s (Body r)) as (buf & re & Ho).
      rewrite Hread in Ho. simpl in Ho. subst o. destruct re as [re|].
      * erewrite AsText_read_failed by eassumption.
        destruct (Hg "" (Some re) (record (EvText "" (Some re)) s1)) as ([] & s' & ->). eauto.
      * erewrite AsText_read by eassumption.
        destruct (Hg (string_of_list_byte buf) None
                     (record (EvText (string_of_list_byte buf) None) s1)) as ([] & s' & ->).
        eauto.
  - intros res err Hres Hh.
    destruct (AsJSON_paths unmarshal_value v h res err s Hres) as (e & s1 & -> & _).
    destruct (Hh e (record (EvJSON e) s1)) as ([] & s' & ->). eauto.
Qed.

(* ------------------------------------------------------------------ *)
(** * The code run on concrete requests *)

Import Sample.

(** The error of a failed redirect policy is not a transport error: the
    client returns the last response with it, its body already closed,
    and the callback receives that response and that error. *)
Lemma Request_error_with_response :
  fst (Do refusing None start) = Normal (Some r302, Some refused) /\
  callbacks (trace (snd (run_func (Request_func refusing None ignore) start))) =
    [(Some r302, Some refused)] /\
  closings (trace (snd (run_func (Request_func refusing None ignore) start))) = [].
Proof. split; [reflexivity |]. split; reflexivity. Qed.


Lemma Get_construction_run :
  Get (serving hello) NewRequest "::" ignore start =
    (Normal tt, record (EvCallback None (Some bad_url)) start, []) /\
  Get (serving hello) NewRequest "http://example.com/" ignore start =
    (Normal tt, start,
     [run_func (Request_func (serving hello)
                  (Some {| Method := "GET"; URL := "http://example.com/";
                           ctx := context_Background; RequestBody := None |}) ignore)]).
Proof.
  split.
  - destruct (proj1 (Get_construction (serving hello) NewRequest "::" ignore start)
                    None bad_url eq_refl) as (o & s' & Hcall & HGet).
    rewrite HGet. cbv [ignore ret] in Hcall. injection Hcall as <- <-. reflexivity.
  - apply (proj2 (Get_construction (serving hello) NewRequest "http://example.com/"
                    ignore start)).
    reflexivity.
Defined.

Lemma readable_with_body data : readable (with_body (stream_of data)) 0 data.
Proof. repeat split. Qed.



Lemma AsText_errors_run :
  AsText ignore_text None (Some timeout) start =
    (Normal tt, record (EvText "" (Some timeout)) start) /\
  texts (trace (snd (AsText ignore_text (Some r0) None (with_body (torn hello timeout))))) =
    [("", Some timeout)].
Proof.
  split.
  - apply (proj1 (AsText_errors ignore_text None (Some timeout) start) timeout eq_refl).
  - rewrite (proj2 (AsText_errors ignore_text (Some r0) None (with_body (torn hello timeout)))
               r0 hello timeout
               (snd (ioutil_ReadAll 0 (with_body (torn hello timeout))))
               eq_refl eq_refl eq_refl).
    reflexivity.
Defined.



(** [AsText] reads the body of a response and leaves it open; inside a
    request the close comes after [AsText] has returned, from the
    deferred call of [Request]. *)
Lemma AsText_leaves_body_open :
  reads (trace (snd (AsText ignore_text (Some r0) None (with_body (stream_of hello))))) = [0] /\
  closings (trace (snd (AsText ignore_text (Some r0) None (with_body (stream_of hello))))) = [] /\
  closed (stream_at (snd (AsText ignore_text (Some r0) None (with_body (stream_of hello)))) 0)
    = false /\
  trace (snd (run_func (Request_func (serving hello) None (AsText ignore_text)) start)) =
    [EvCallback (Some r0) None; EvReadAll 0; EvText "hello world" None; EvClose 0].
Proof. repeat split; reflexivity. Qed.

Lemma Request_closes_body_run :
  closings (trace (snd (run_func (Request_func (serving hello) None crash) start))) = [0] /\
  log (snd (run_func (Request_func (serving hello) None crash) start)) =
    [[VString "boom"; VString "goroutine 7 [running]:"]].
Proof.
  destruct (Request_closes_body MyTypeDecoder.unmarshal_value (serving hello) None crash start
              r0 (snd (Do (serving hello) None start))
              (Panicking (VString "boom"))
              (record (EvCallback (Some r0) None) (snd (Do (serving hello) None start)))
              eq_refl eq_refl)
    as ((s3 & Hrun & Hclose & _) & _).
  rewrite Hrun. split; [exact Hclose |].
  rewrite <- Hrun. reflexivity.
Defined.

Lemma AsJSON_not_json_run :
  exists e s1,
    AsJSON MyTypeDecoder.unmarshal_value (Some 0) ignore_err (Some r0) None
      (with_body (stream_of not_json)) = (Normal tt, record (EvJSON (Some e)) s1) /\
    cells s1 = cells (with_body (stream_of not_json)).
Proof.
  exact (AsJSON_not_json MyTypeDecoder.unmarshal_value (Some 0) ignore_err r0
           (with_body (stream_of not_json)) (readable_with_body not_json)).
Defined.

Lemma AsJSON_leaves_target_run :
  exists s1,
    AsJSON MyTypeDecoder.unmarshal_value (Some 0) ignore_err (Some r0) None
      (with_body (torn document timeout)) = (Normal tt, record (EvJSON (Some timeout)) s1) /\
    cells s1 = cells (with_body (torn document timeout)) /\
    unmarshals (trace (record (EvJSON (Some timeout)) s1)) = [].
Proof.
  apply (AsJSON_leaves_target MyTypeDecoder.unmarshal_value (Some 0) ignore_err (Some r0) None
           (with_body (torn document timeout)) timeout).
  right. exists r0, document. repeat split.
Defined.

Lemma decoders_need_a_response_run :
  exists s', AsText ignore_text (Some r0) None (with_body (stream_of hello)) = (Normal tt, s').
Proof.
  destruct (decoders_need_a_response MyTypeDecoder.unmarshal_value ignore_text (Some 0)
              ignore_err (with_body (stream_of hello))) as (_ & _ & Htext & _).
  apply Htext.
  - discriminate.
  - intros t e s. exists tt, s. reflexivity.
Defined.

(* ------------------------------------------------------------------ *)
(** * More on the dispatcher and the decoders *)

Section Pipeline.

Context {T : Type}.
Variable unmarshal_value : list byte -> T -> T * option error.

Implicit Types (s : State T) (f : Callback T) (client : Client T).
Implicit Types (res : option Response) (err : option error) (r : Response).

(** ** What each library call leaves alone *)

Lemma stream_at_record e s b : stream_at (record e s) b = stream_at s b.
Proof. reflexivity. Qed.

Lemma readable_record e s b data : readable s b data -> readable (record e s) b data.
Proof. intros H. exact H. Qed.

Lemma ReadAll_other s b b' :
  b' <> b -> streams (snd (ioutil_ReadAll b s)) !! b' = streams s !! b'.
Proof.
  intros Hne. unfold ioutil_ReadAll. destruct (closed (stream_at s b)); simpl; [reflexivity |].
  apply lookup_insert_ne. congruence.
Qed.

Lemma ReadAll_log s b : log (snd (ioutil_ReadAll b s)) = log s.
Proof. unfold ioutil_ReadAll. destruct (closed (stream_at s b)); reflexivity. Qed.

Lemma ReadAll_drains s b data :
  readable s b data ->
  readable (snd (ioutil_ReadAll b s)) b [].
Proof.
  intros (Hopen & Hfail & _). unfold ioutil_ReadAll. rewrite Hopen. simpl.
  unfold readable. rewrite stream_at_insert. simpl. auto.
Qed.


Lemma Unmarshal_streams data v s :
  streams (snd (json_Unmarshal unmarshal_value data v s)) = streams s /\
  log (snd (json_Unmarshal unmarshal_value data v s)) = log s.
Proof.
  unfold json_Unmarshal. destruct (scanner.checkValid data); simpl; auto.
  destruct (v ≫= _) as [[a x]|]; simpl; auto.
  destruct (unmarshal_value data x); simpl; auto.
Qed.

(** [json.Unmarshal] stores through [v] and nowhere else. *)
Lemma Unmarshal_other data v s a' :
  v <> Some a' ->
  cells (snd (json_Unmarshal unmarshal_value data v s)) !! a' = cells s !! a'.
Proof.
  intros Hne. unfold json_Unmarshal. destruct (scanner.checkValid data); simpl; auto.
  destruct v as [a|]; simpl; auto.
  destruct (cells s !! a) as [x|] eqn:Ha; simpl; auto.
  destruct (unmarshal_value data x); simpl.
  apply lookup_insert_ne. congruence.
Qed.

(** Without a target to store into, nothing is stored and the call fails. *)
Lemma Unmarshal_no_target data v s :
  v ≫= (fun a => cells s !! a) = None ->
  exists e,
    json_Unmarshal unmarshal_value data v s = (Normal (Some e), record (EvUnmarshal data) s).
Proof.
  intros Hv. unfold json_Unmarshal. destruct (scanner.checkValid data) as [e|]; [eauto |].
  destruct v as [a|]; simpl in *; [rewrite Hv |]; simpl; eauto.
Qed.

(** ** The goroutine of [Request] after an answer *)

Lemma Request_func_answered_end client request f s r s1 o s2 :
  Do client request s = (Normal (Some r, None), s1) ->
  f (Some r) None (record (EvCallback (Some r) None) s1) = (o, s2) ->
  exists s3,
    run_func (Request_func client request f) s = (None, s3) /\
    trace s3 = trace s2 ++ [EvClose (Body r)] /\
    cells s3 = cells s2 /\
    closed (stream_at s3 (Body r)) = true /\
    (forall b, b <> Body r -> streams s3 !! b = streams s2 !! b) /\
    log s3 = log s2 ++
             match o with
             | Panicking v => [[v; VString (string_of_list_byte (stack s2))]]
             | Normal _ => []
             end.
Proof.
  intros HDo Hcall.
  assert (run_func (Request_func client request f) s =
          GlobalPanicHandler (panic_of o) (snd (Body_Close (Body r) s2))) as Hrun.
  { erewrite Request_func_answered by eassumption. unfold call. rewrite Hcall. reflexivity. }
  rewrite Hrun. destruct o as [[]|v]; simpl.
  - eexists. split; [reflexivity |]. simpl. rewrite app_nil_r.
    repeat split; auto.
    + unfold stream_at. simpl. rewrite lookup_insert_eq. reflexivity.
    + intros b Hb. apply lookup_insert_ne. congruence.
  - eexists. split; [reflexivity |]. simpl.
    repeat split; auto.
    + unfold stream_at. simpl. rewrite lookup_insert_eq. reflexivity.
    + intros b Hb. apply lookup_insert_ne. congruence.
Qed.

(** ** How often the callback runs, and what is logged *)

(** X1: whatever the client does, the goroutine of [Request] invokes the
    callback at most once: once, with the pair [Do] returned, when [Do]
    returns and does not return nil with nil; never when [Do] panics or
    returns a nil response with a nil error. *)
Theorem Request_callback_count client request f s o1 s1 :
  Do client request s = (o1, s1) ->
  callbacks (trace s1) = callbacks (trace s) ->
  (forall res err, keeps callbacks (f res err)) ->
  callbacks (trace (snd (run_func (Request_func client request f) s))) =
    callbacks (trace s) ++
    match o1 with
    | Normal (None, None) => []
    | Normal (res, err) => [(res, err)]
    | Panicking _ => []
    end.
Proof.
  intros HDo Hquiet Hf. destruct o1 as [[res [e|]]|v].
  - destruct (Request_error_passes_through client request f s res e s1 HDo Hquiet Hf)
      as (o & s2 & s3 & _ & Hrun & Hcalls & _).
    rewrite Hrun. destruct res; exact Hcalls.
  - destruct res as [r|].
    + destruct (f (Some r) None (record (EvCallback (Some r) None) s1)) as [o s2] eqn:Hcall.
      destruct (Request_func_answered_end client request f s r s1 o s2 HDo Hcall)
        as (s3 & Hrun & Ht & _).
      rewrite Hrun. simpl. rewrite Ht. unfold callbacks at 1. rewrite omap_app, app_nil_r.
      specialize (Hf (Some r) None (record (EvCallback (Some r) None) s1)).
      rewrite Hcall in Hf. cbn [snd] in Hf. unfold callbacks in Hf at 1. rewrite Hf.
      rewrite callbacks_record_callback, Hquiet. reflexivity.
    + erewrite Request_func_nothing by eassumption.
      destruct (GlobalPanicHandler_frame (Some nil_dereference) s1) as (-> & _).
      rewrite Hquiet, app_nil_r. reflexivity.
  - erewrite Request_func_Do_panics by eassumption.
    destruct (GlobalPanicHandler_frame (Some v) s1) as (-> & _).
    rewrite Hquiet, app_nil_r. reflexivity.
Qed.

(** X2: the goroutine of [Request] writes one line to the logger for a
    panic, whoever raised it, and none otherwise: the value is that of
    the panic of [Do], the nil dereference when [Do] returns nil with
    nil, or the value the callback panicked with; when the callback
    returns, [Request] logs nothing. *)
Theorem Request_diagnostics client request f s o1 s1 :
  Do client request s = (o1, s1) ->
  match o1 with
  | Panicking v =>
      log (snd (run_func (Request_func client request f) s)) =
        log s1 ++ [[v; VString (string_of_list_byte (stack s1))]]
  | Normal (None, None) =>
      log (snd (run_func (Request_func client request f) s)) =
        log s1 ++ [[nil_dereference; VString (string_of_list_byte (stack s1))]]
  | Normal (res, err) =>
      forall o s2,
        f res err (record (EvCallback res err) s1) = (o, s2) ->
        log (snd (run_func (Request_func client request f) s)) =
          log s2 ++
          match o with
          | Panicking v => [[v; VString (string_of_list_byte (stack s2))]]
          | Normal _ => []
          end
  end.
Proof.
  intros HDo.
  assert (forall res e o s2,
            o1 = Normal (res, Some e) ->
            f res (Some e) (record (EvCallback res (Some e)) s1) = (o, s2) ->
            log (snd (run_func (Request_func client request f) s)) =
              log s2 ++
              match o with
              | Panicking v => [[v; VString (string_of_list_byte (stack s2))]]
              | Normal _ => []
              end) as Hfailed.
  { intros res e o s2 -> Hcall. erewrite Request_func_failed by eassumption.
    unfold call. rewrite Hcall. destruct o as [[]|v]; simpl; [rewrite app_nil_r |]; reflexivity. }
  destruct o1 as [[[r|] [e|]]|v].
  - intros o s2. apply Hfailed. reflexivity.
  - intros o s2 Hcall.
    destruct (Request_func_answered_end client request f s r s1 o s2 HDo Hcall)
      as (s3 & Hrun & _ & _ & _ & _ & Hlog).
    rewrite Hrun. exact Hlog.
  - intros o s2. apply Hfailed. reflexivity.
  - erewrite Request_func_nothing by eassumption. reflexivity.
  - erewrite Request_func_Do_panics by eassumption. reflexivity.
Qed.


(** ** [Get] and [Request] with a decoder as the callback *)

(** X4: when the request cannot be built, [Get] with a decoder as its
    callback reaches the inner callback on the calling thread, with the
    empty text and the construction error ([AsText]) or with the
    construction error ([AsJSON]); up to then nothing is read, decoded
    or stored, and no goroutine is started. *)
Theorem Get_construction_error_decoded client
    (newreq : Context -> string -> string -> option (list byte)
              -> option HttpRequest * option error)
    url (g : TextCallback T) v (h : ErrCallback T) s req e :
  newreq context_Background "GET" url None = (req, Some e) ->
  (exists o s',
     g "" (Some e) (record (EvText "" (Some e)) (record (EvCallback None (Some e)) s)) = (o, s') /\
     Get client newreq url (AsText g) s = (o, s', [])) /\
  (exists o s',
     h (Some e) (record (EvJSON (Some e)) (record (EvCallback None (Some e)) s)) = (o, s') /\
     Get client newreq url (AsJSON unmarshal_value v h) s = (o, s', [])).
Proof.
  intros Hnew. split.
  - destruct (g "" (Some e) (record (EvText "" (Some e)) (record (EvCallback None (Some e)) s)))
      as [o s'] eqn:Hg.
    exists o, s'. split; [reflexivity |].
    unfold Get. rewrite Hnew. unfold here, call. rewrite AsText_upstream, Hg. reflexivity.
  - destruct (h (Some e) (record (EvJSON (Some e)) (record (EvCallback None (Some e)) s)))
      as [o s'] eqn:Hh.
    exists o, s'. split; [reflexivity |].
    unfold Get. rewrite Hnew. unfold here, call.
    rewrite (AsJSON_upstream unmarshal_value), Hh. reflexivity.
Qed.

(** X5: a request answered with a body that reads to its end, with
    [AsText g] as its callback: [g] receives the whole body as text and
    a nil error, once; the body is closed once, after that; and the
    goroutine ends without a panic in flight, whatever [g] did. *)
Theorem Request_AsText client request (g : TextCallback T) s r s1 data :
  Do client request s = (Normal (Some r, None), s1) ->
  readable s1 (Body r) data ->
  (forall t e, keeps texts (g t e)) ->
  (forall t e, keeps closings (g t e)) ->
  fst (run_func (Request_func client request (AsText g)) s) = None /\
  texts (trace (snd (run_func (Request_func client request (AsText g)) s))) =
    texts (trace s1) ++ [(string_of_list_byte data, None)] /\
  closings (trace (snd (run_func (Request_func client request (AsText g)) s))) =
    closings (trace s1) ++ [Body r] /\
  closed (stream_at (snd (run_func (Request_func client request (AsText g)) s)) (Body r)) = true.
Proof.
  intros HDo Hbody Htexts Hcloses.
  destruct (ReadAll_readable (record (EvCallback (Some r) None) s1) (Body r) data
              (readable_record _ _ _ _ Hbody)) as (s' & Hread & _ & _ & Ht').
  pose proof (AsText_read g r _ data s' Hread) as Heq.
  destruct (AsText g (Some r) None (record (EvCallback (Some r) None) s1)) as [o s2] eqn:Hcall.
  destruct (Request_func_answered_end client request (AsText g) s r s1 o s2 HDo Hcall)
    as (s3 & Hrun & Ht & _ & Hclosed & _).
  rewrite Hrun. simpl. split; [reflexivity |].
  assert (trace s2 = trace (snd (g (string_of_list_byte data) None
                                   (record (EvText (string_of_list_byte data) None) s'))))
    as Hs2 by (rewrite <- Heq; reflexivity).
  split; [| split; [| exact Hclosed]].
  - rewrite Ht. unfold texts at 1. rewrite omap_app, app_nil_r.
    fold (texts (trace s2)). rewrite Hs2, Htexts, texts_record_text, Ht', trace_record.
    unfold texts. rewrite !omap_app. simpl. rewrite !app_nil_r. reflexivity.
  - rewrite Ht. unfold closings at 1. rewrite omap_app. simpl. f_equal.
    fold (closings (trace s2)). rewrite Hs2, Hcloses.
    rewrite (omap_record close_of) by reflexivity. rewrite Ht', trace_record.
    unfold closings. rewrite !omap_app. simpl. rewrite !app_nil_r. reflexivity.
Qed.

(** X6: the use the comment of [AsJSON] shows, [Get(url, AsJSON(&v, h))],
    when the request can be built and is answered with a valid document.
    [Get] returns at once: it starts one goroutine and changes nothing,
    so the target is not yet stored and [h] has not run.  When the
    goroutine has run, [h] has received what the store returned, once,
    the target holds what the store left in it, and the body has been
    closed once. *)
Theorem Get_AsJSON client
    (newreq : Context -> string -> string -> option (list byte)
              -> option HttpRequest * option error)
    url req a (h : ErrCallback T) s r s1 data x :
  newreq context_Background "GET" url None = (req, None) ->
  Do client req s = (Normal (Some r, None), s1) ->
  readable s1 (Body r) data ->
  scanner.checkValid data = None ->
  cells s1 !! a = Some x ->
  (forall e, keeps jsons (h e)) ->
  (forall e, keeps closings (h e)) ->
  (forall e s', cells (snd (h e s')) = cells s') ->
  exists g,
    Get client newreq url (AsJSON unmarshal_value (Some a) h) s = (Normal tt, s, [g]) /\
    fst (g s) = None /\
    jsons (trace (snd (g s))) = jsons (trace s1) ++ [snd (unmarshal_value data x)] /\
    closings (trace (snd (g s))) = closings (trace s1) ++ [Body r] /\
    cells (snd (g s)) !! a = Some (fst (unmarshal_value data x)).
Proof.
  intros Hnew HDo Hbody Hvalid Ha Hjsons Hcloses Hcells.
  exists (run_func (Request_func client req (AsJSON unmarshal_value (Some a) h))).
  split; [unfold Get; rewrite Hnew; reflexivity |].
  destruct (ReadAll_readable (record (EvCallback (Some r) None) s1) (Body r) data
              (readable_record _ _ _ _ Hbody)) as (s' & Hread & Hc' & _ & Ht').
  assert (cells s' !! a = Some x) as Ha' by (rewrite Hc'; exact Ha).
  pose proof (AsJSON_read unmarshal_value (Some a) h r _ data s' _ _ Hread
                (Unmarshal_valid unmarshal_value data a x s' Hvalid Ha')) as Heq.
  destruct (AsJSON unmarshal_value (Some a) h (Some r) None
              (record (EvCallback (Some r) None) s1)) as [o s2] eqn:Hcall.
  destruct (Request_func_answered_end client req _ s r s1 o s2 HDo Hcall)
    as (s3 & Hrun & Ht & Hc3 & _).
  rewrite Hrun. simpl.
  set (e := snd (unmarshal_value data x)) in *.
  set (s'' := set_cells _ _) in Heq.
  assert (s2 = snd (h e (record (EvJSON e) s''))) as Hs2 by (rewrite <- Heq; reflexivity).
  split; [reflexivity |]. split; [| split].
  - rewrite Ht. unfold jsons at 1. rewrite omap_app, app_nil_r.
    fold (jsons (trace s2)). rewrite Hs2, Hjsons, jsons_record_json.
    subst s''. simpl. rewrite Ht', trace_record.
    unfold jsons. rewrite !omap_app. simpl. rewrite !app_nil_r. reflexivity.
  - rewrite Ht. unfold closings at 1. rewrite omap_app. simpl. f_equal.
    fold (closings (trace s2)). rewrite Hs2, Hcloses.
    rewrite (omap_record close_of) by reflexivity.
    subst s''. simpl. rewrite Ht', trace_record.
    unfold closings. rewrite !omap_app. simpl. rewrite !app_nil_r. reflexivity.
  - rewrite Hc3, Hs2, Hcells. subst s''. simpl. apply lookup_insert_eq.
Qed.

(** ** Edges of the decoders *)


(** X8: with a nil [v], or a [v] that points to no target, the callback
    of [AsJSON] forwards a non-nil error for every body it can read, and
    stores nothing. *)
Theorem AsJSON_no_target v (h : ErrCallback T) r s data :
  readable s (Body r) data ->
  v = None \/ (exists a, v = Some a /\ cells s !! a = None) ->
  exists e s1,
    AsJSON unmarshal_value v h (Some r) None s = h (Some e) (record (EvJSON (Some e)) s1) /\
    cells s1 = cells s.
Proof.
  intros Hbody Hv.
  destruct (ReadAll_readable s (Body r) data Hbody) as (s' & Hread & Hcells & _).
  destruct (Unmarshal_no_target data v s') as (e & Hdec).
  { destruct Hv as [-> | (a & -> & Ha)]; simpl; [reflexivity | now rewrite Hcells]. }
  exists e. eexists. split.
  - eapply AsJSON_read; [exact Hread | exact Hdec].
  - exact Hcells.
Qed.

(** The scanner on blanks: it is still waiting for a value at the end. *)
Lemma scan_blank data (sc : scanner.t) :
  forallb scanner.isSpace data = true ->
  scanner.step sc = scanner.stateBeginValue ->
  scanner.endTop sc = false ->
  scanner.err sc = None ->
  scanner.scan data sc =
    Some (SyntaxError UnexpectedEnd (scanner.bytes sc + List.length data)).
Proof.
  revert sc. induction data as [| c data IH]; intros sc Hblank Hstep Htop Herr.
  - simpl. unfold scanner.eof. rewrite Herr, Htop.
    unfold scanner.do_step. rewrite Hstep. unfold scanner.do_stateBeginValue.
    change (scanner.isSpace " "%byte) with true. cbn [snd]. rewrite Htop, Herr. simpl.
    rewrite Nat.add_0_r. reflexivity.
  - simpl in Hblank. apply andb_true_iff in Hblank as [Hc Hblank].
    cbn [scanner.scan]. unfold scanner.do_step. cbn [scanner.bump scanner.step].
    rewrite Hstep. unfold scanner.do_stateBeginValue. rewrite Hc. cbn [scanner.is_scanError].
    rewrite (IH (scanner.bump sc)) by (auto; exact Hblank).
    simpl. f_equal. f_equal. lia.
Qed.

(** X9: for a body that is empty or holds only blanks (space, tab, line
    feed, carriage return), the callback of [AsJSON] forwards the error
    "unexpected end of JSON input", with the length of the body as its
    offset, and stores nothing. *)
Theorem AsJSON_blank_body v (h : ErrCallback T) r s data :
  readable s (Body r) data ->
  forallb scanner.isSpace data = true ->
  exists s1,
    AsJSON unmarshal_value v h (Some r) None s =
      h (Some (SyntaxError UnexpectedEnd (List.length data)))
        (record (EvJSON (Some (SyntaxError UnexpectedEnd (List.length data)))) s1) /\
    cells s1 = cells s.
Proof.
  intros Hbody Hblank.
  destruct (ReadAll_readable s (Body r) data Hbody) as (s' & Hread & Hcells & _).
  eexists. split.
  - eapply AsJSON_read; [exact Hread |]. apply Unmarshal_invalid.
    unfold scanner.checkValid. rewrite scan_blank by (auto; reflexivity). reflexivity.
  - exact Hcells.
Qed.

(** X10: the text [AsText] forwards holds the bytes of the body, all of
    them and in order, whatever they are: converting it back gives the
    body. *)
Theorem AsText_lossless (g : TextCallback T) r s data :
  readable s (Body r) data ->
  exists t s1,
    AsText g (Some r) None s = g t None (record (EvText t None) s1) /\
    list_byte_of_string t = data /\
    String.length t = List.length data.
Proof.
  intros Hbody.
  destruct (ReadAll_readable s (Body r) data Hbody) as (s' & Hread & _).
  exists (string_of_list_byte data), s'. split; [eapply AsText_read; exact Hread |].
  split; [apply list_byte_of_string_of_list_byte |].
  clear. induction data as [| c data IH]; simpl; [reflexivity | f_equal; exact IH].
Qed.

(** X11: up to the call of the inner callback, the callback of [AsText]
    changes nothing but the body of the response it was given: the
    decode targets, the logger and every other body are as they were,
    and nothing was decoded. *)
Theorem AsText_frame (g : TextCallback T) res err s :
  (err = None -> res <> None) ->
  exists t e s1,
    AsText g res err s = g t e (record (EvText t e) s1) /\
    cells s1 = cells s /\
    log s1 = log s /\
    unmarshals (trace s1) = unmarshals (trace s) /\
    (forall b, (forall r, res = Some r -> b <> Body r) -> streams s1 !! b = streams s !! b).
Proof.
  intros Hres. destruct err as [u|].
  - exists "", (Some u), s. split; [apply AsText_upstream | auto].
  - destruct res as [r|]; [| now destruct Hres].
    destruct (ioutil_ReadAll (Body r) s) as [o s1] eqn:Hread.
    destruct (ReadAll_returns s (Body r)) as (buf & re & Ho).
    destruct (ReadAll_frame s (Body r)) as [Hc Ht].
    pose proof (ReadAll_log s (Body r)) as Hl.
    pose proof (fun b => ReadAll_other s (Body r) b) as Hs.
    rewrite Hread in Ho, Hc, Ht, Hl, Hs. simpl in Ho, Hc, Ht, Hl, Hs. subst o.
    assert (unmarshals (trace s1) = unmarshals (trace s)) as Hu.
    { rewrite Ht. unfold unmarshals. rewrite omap_app. apply app_nil_r. }
    destruct re as [re|].
    + exists "", (Some re), s1. split; [eapply AsText_read_failed; eauto |].
      repeat split; auto.
    + exists (string_of_list_byte buf), None, s1. split; [eapply AsText_read; eauto |].
      repeat split; auto.
Qed.

(** X12: up to the call of the inner callback, the callback of [AsJSON]
    changes nothing but the body of the response it was given and the
    target [v] points to: the logger, every other body and every other
    target are as they were. *)
Theorem AsJSON_frame v (h : ErrCallback T) res err s :
  (err = None -> res <> None) ->
  exists e s1,
    AsJSON unmarshal_value v h res err s = h e (record (EvJSON e) s1) /\
    log s1 = log s /\
    (forall b, (forall r, res = Some r -> b <> Body r) -> streams s1 !! b = streams s !! b) /\
    (forall a, v <> Some a -> cells s1 !! a = cells s !! a).
Proof.
  intros Hres.
  destruct (AsJSON_paths unmarshal_value v h res err s Hres) as (e & s1 & Heq & Hpath).
  exists e, s1. split; [exact Heq |].
  destruct Hpath as [(u & _ & _ & ->) | [(r & buf & re & _ & -> & _ & Hread)
                                        | (r & buf & s' & _ & -> & Hread & Hdec)]].
  - auto.
  - destruct (ReadAll_frame s (Body r)) as [Hc _].
    pose proof (ReadAll_log s (Body r)) as Hl.
    pose proof (fun b => ReadAll_other s (Body r) b) as Hs.
    rewrite Hread in Hc, Hl, Hs. simpl in Hc, Hl, Hs.
    split; [exact Hl |]. split; [| intros a _; now rewrite Hc].
    intros b Hb. apply Hs. now apply Hb.
  - destruct (ReadAll_frame s (Body r)) as [Hc _].
    pose proof (ReadAll_log s (Body r)) as Hl.
    pose proof (fun b => ReadAll_other s (Body r) b) as Hs.
    rewrite Hread in Hc, Hl, Hs. simpl in Hc, Hl, Hs.
    destruct (Unmarshal_streams buf v s') as [Hs' Hl'].
    pose proof (fun a => Unmarshal_other buf v s' a) as Hc'.
    rewrite Hdec in Hs', Hl', Hc'. simpl in Hs', Hl', Hc'.
    split; [now rewrite Hl' |]. split.
    + intros b Hb. rewrite Hs'. apply Hs. now apply Hb.
    + intros a Ha. rewrite Hc' by exact Ha. now rewrite Hc.
Qed.

(** X13: a body is read once.  When the callback of [AsText] is run a
    second time on the same response, with an inner callback that leaves
    the bodies alone, it forwards the empty text and a nil error. *)
Theorem AsText_second_read (g : TextCallback T) r s data :
  (forall t e s', streams (snd (g t e s')) = streams s') ->
  readable s (Body r) data ->
  exists s1,
    AsText g (Some r) None (snd (AsText g (Some r) None s)) =
      g "" None (record (EvText "" None) s1).
Proof.
  intros Hg Hbody.
  destruct (ReadAll_readable s (Body r) data Hbody) as (s' & Hread & _).
  pose proof (ReadAll_drains s (Body r) data Hbody) as Hdrained.
  rewrite Hread in Hdrained. simpl in Hdrained.
  rewrite (AsText_read g r s data s' Hread).
  set (s2 := snd (g _ None _)).
  assert (readable s2 (Body r) []) as Hagain.
  { unfold readable, stream_at in *. subst s2. rewrite Hg. exact Hdrained. }
  destruct (ReadAll_readable s2 (Body r) [] Hagain) as (s3 & Hread2 & _).
  exists s3. apply (AsText_read g r s2 [] s3 Hread2).
Qed.


(** ** Exactly one delivery per answered request *)

(** What the decoders add to the trace before their inner callback runs
    is a read, and for [AsJSON] possibly a decode. *)
Lemma AsText_trace (g : TextCallback T) r s :
  exists t e s1,
    AsText g (Some r) None s = g t e (record (EvText t e) s1) /\
    texts (trace s1) = texts (trace s) /\
    closings (trace s1) = closings (trace s).
Proof.
  destruct (ioutil_ReadAll (Body r) s) as [o s1] eqn:Hread.
  destruct (ReadAll_returns s (Body r)) as (buf & re & Ho).
  destruct (ReadAll_frame s (Body r)) as [_ Ht].
  rewrite Hread in Ho, Ht. simpl in Ho, Ht. subst o.
  assert (texts (trace s1) = texts (trace s) /\ closings (trace s1) = closings (trace s))
    as Hsame.
  { rewrite Ht. unfold texts, closings. rewrite !omap_app. simpl. rewrite !app_nil_r. auto. }
  destruct re as [re|].
  - exists "", (Some re), s1. split; [eapply AsText_read_failed; eauto | exact Hsame].
  - exists (string_of_list_byte buf), None, s1. split; [eapply AsText_read; eauto | exact Hsame].
Qed.

Lemma AsJSON_trace v (h : ErrCallback T) r s :
  exists e s1,
    AsJSON unmarshal_value v h (Some r) None s = h e (record (EvJSON e) s1) /\
    jsons (trace s1) = jsons (trace s) /\
    closings (trace s1) = closings (trace s).
Proof.
  destruct (AsJSON_paths unmarshal_value v h (Some r) None s) as (e & s1 & Heq & Hpath);
    [discriminate |].
  exists e, s1. split; [exact Heq |].
  destruct Hpath as [(u & Hu & _) | [(r' & buf & re & _ & Hr & _ & Hread)
                                     | (r' & buf & s' & _ & Hr & Hread & Hdec)]].
  - discriminate.
  - injection Hr as <-. destruct (ReadAll_frame s (Body r)) as [_ Ht].
    rewrite Hread in Ht. simpl in Ht. rewrite Ht.
    unfold jsons, closings. rewrite !omap_app. simpl. rewrite !app_nil_r. auto.
  - injection Hr as <-. destruct (ReadAll_frame s (Body r)) as [_ Ht].
    rewrite Hread in Ht. simpl in Ht.
    pose proof (Unmarshal_trace unmarshal_value buf v s') as Hu.
    rewrite Hdec in Hu. simpl in Hu. rewrite Hu, Ht.
    unfold jsons, closings. rewrite !omap_app. simpl. rewrite !app_nil_r. auto.
Qed.

(** X15: for every answered request, whatever state its body is in
    (readable, failing part way, or closed already) and whatever it
    holds, a decoder used as the callback reaches its inner callback
    exactly once, and the body is closed exactly once by [Request]. *)
Theorem Request_decoder_exactly_once client request (g : TextCallback T) v
    (h : ErrCallback T) s r s1 :
  Do client request s = (Normal (Some r, None), s1) ->
  (forall t e, keeps texts (g t e)) ->
  (forall t e, keeps closings (g t e)) ->
  (forall e, keeps jsons (h e)) ->
  (forall e, keeps closings (h e)) ->
  (exists t e,
     texts (trace (snd (run_func (Request_func client request (AsText g)) s))) =
       texts (trace s1) ++ [(t, e)] /\
     closings (trace (snd (run_func (Request_func client request (AsText g)) s))) =
       closings (trace s1) ++ [Body r]) /\
  (exists e,
     jsons (trace (snd (run_func (Request_func client request
                                    (AsJSON unmarshal_value v h)) s))) =
       jsons (trace s1) ++ [e] /\
     closings (trace (snd (run_func (Request_func client request
                                       (AsJSON unmarshal_value v h)) s))) =
       closings (trace s1) ++ [Body r]).
Proof.
  intros HDo Hgt Hgc Hhj Hhc. split.
  - destruct (AsText_trace g r (record (EvCallback (Some r) None) s1))
      as (t & e & s' & Heq & Htexts & Hcloses).
    destruct (AsText g (Some r) None (record (EvCallback (Some r) None) s1))
      as [o s2] eqn:Hcall.
    destruct (Request_func_answered_end client request (AsText g) s r s1 o s2 HDo Hcall)
      as (s3 & Hrun & Ht & _).
    assert (s2 = snd (g t e (record (EvText t e) s'))) as Hs2 by (rewrite <- Heq; reflexivity).
    exists t, e. rewrite Hrun. simpl. rewrite Ht. split.
    + unfold texts at 1. rewrite omap_app, app_nil_r. fold (texts (trace s2)).
      rewrite Hs2, Hgt, texts_record_text, Htexts.
      rewrite (omap_record text_of) by reflexivity. reflexivity.
    + unfold closings at 1. rewrite omap_app. simpl. f_equal. fold (closings (trace s2)).
      rewrite Hs2, Hgc. rewrite (omap_record close_of) by reflexivity.
      fold (closings (trace s')). rewrite Hcloses.
      apply (omap_record close_of). reflexivity.
  - destruct (AsJSON_trace v h r (record (EvCallback (Some r) None) s1))
      as (e & s' & Heq & Hjsons & Hcloses).
    destruct (AsJSON unmarshal_value v h (Some r) None (record (EvCallback (Some r) None) s1))
      as [o s2] eqn:Hcall.
    destruct (Request_func_answered_end client request _ s r s1 o s2 HDo Hcall)
      as (s3 & Hrun & Ht & _).
    assert (s2 = snd (h e (record (EvJSON e) s'))) as Hs2 by (rewrite <- Heq; reflexivity).
    exists e. rewrite Hrun. simpl. rewrite Ht. split.
    + unfold jsons at 1. rewrite omap_app, app_nil_r. fold (jsons (trace s2)).
      rewrite Hs2, Hhj, jsons_record_json, Hjsons.
      rewrite (omap_record json_of) by reflexivity. reflexivity.
    + unfold closings at 1. rewrite omap_app. simpl. f_equal. fold (closings (trace s2)).
      rewrite Hs2, Hhc. rewrite (omap_record close_of) by reflexivity.
      fold (closings (trace s')). rewrite Hcloses.
      apply (omap_record close_of). reflexivity.
Qed.

End Pipeline.

(* ------------------------------------------------------------------ *)
(** * The pipeline run on concrete requests *)

Lemma readable_served data : readable (snd (Do (serving data) None start)) 0 data.
Proof. repeat split. Qed.

Lemma Request_callback_count_run :
  callbacks (trace (snd (run_func (Request_func (serving hello) None crash) start))) =
    [(Some r0, None)].
Proof.
  apply (Request_callback_count (serving hello) None crash start
           (Normal (Some r0, None)) (snd (Do (serving hello) None start))).
  - reflexivity.
  - reflexivity.
  - intros res err s. reflexivity.
Defined.

Lemma Request_diagnostics_run :
  log (snd (run_func (Request_func (serving hello) None crash) start)) =
    [[VString "boom"; VString "goroutine 7 [running]:"]].
Proof.
  apply (Request_diagnostics (serving hello) None crash start
           (Normal (Some r0, None)) (snd (Do (serving hello) None start)) eq_refl
           (Panicking (VString "boom"))
           (record (EvCallback (Some r0) None) (snd (Do (serving hello) None start)))).
  reflexivity.
Defined.


Lemma Get_construction_error_decoded_run :
  Get (serving hello) NewRequest "::" (AsText ignore_text) start =
    (Normal tt,
     record (EvText "" (Some bad_url)) (record (EvCallback None (Some bad_url)) start), []).
Proof.
  destruct (proj1 (Get_construction_error_decoded MyTypeDecoder.unmarshal_value
                     (serving hello) NewRequest "::" ignore_text (Some 0) ignore_err
                     start None bad_url eq_refl)) as (o & s' & Hg & HGet).
  rewrite HGet. cbv [ignore_text ret] in Hg. injection Hg as <- <-. reflexivity.
Defined.

Lemma Request_AsText_run :
  texts (trace (snd (run_func (Request_func (serving hello) None (AsText ignore_text)) start))) =
    [("hello world", None)].
Proof.
  apply (Request_AsText (serving hello) None ignore_text start r0
           (snd (Do (serving hello) None start)) hello eq_refl (readable_served hello)).
  - intros t e s. reflexivity.
  - intros t e s. reflexivity.
Defined.

Lemma Get_AsJSON_run :
  exists g,
    Get (serving document) NewRequest "http://example.com/"
      (AsJSON MyTypeDecoder.unmarshal_value (Some 0) ignore_err) start = (Normal tt, start, [g]) /\
    cells start !! 0 = Some {| SomeField := "old" |} /\
    cells (snd (g start)) !! 0 = Some {| SomeField := "x" |}.
Proof.
  destruct (Get_AsJSON MyTypeDecoder.unmarshal_value (serving document) NewRequest
              "http://example.com/"
              (Some {| Method := "GET"; URL := "http://example.com/";
                       ctx := context_Background; RequestBody := None |})
              0 ignore_err start r0
              (snd (Do (serving document) None start)) document {| SomeField := "old" |}
              eq_refl eq_refl (readable_served document))
    as (g & HGet & _ & _ & _ & Hcell).
  - vm_compute. reflexivity.
  - reflexivity.
  - intros e s. reflexivity.
  - intros e s. reflexivity.
  - intros e s. reflexivity.
  - exists g. split; [exact HGet |]. split; [reflexivity | exact Hcell].
Defined.


Lemma AsJSON_no_target_run :
  exists e s1,
    AsJSON MyTypeDecoder.unmarshal_value None ignore_err (Some r0) None
      (with_body (stream_of document)) = (Normal tt, record (EvJSON (Some e)) s1) /\
    cells s1 = cells (with_body (stream_of document)).
Proof.
  apply (AsJSON_no_target MyTypeDecoder.unmarshal_value None ignore_err r0
           (with_body (stream_of document)) document (readable_with_body document)).
  left. reflexivity.
Defined.

Lemma AsJSON_blank_body_run :
  exists s1,
    AsJSON MyTypeDecoder.unmarshal_value (Some 0) ignore_err (Some r0) None
      (with_body (stream_of (list_byte_of_string "  "))) =
      (Normal tt, record (EvJSON (Some (SyntaxError UnexpectedEnd 2))) s1) /\
    cells s1 = cells (with_body (stream_of (list_byte_of_string "  "))).
Proof.
  apply (AsJSON_blank_body MyTypeDecoder.unmarshal_value (Some 0) ignore_err r0
           (with_body (stream_of (list_byte_of_string "  "))) (list_byte_of_string "  ")
           (readable_with_body _)).
  reflexivity.
Defined.

Lemma AsText_lossless_run :
  exists t s1,
    AsText ignore_text (Some r0) None (with_body (stream_of hello)) =
      (Normal tt, record (EvText t None) s1) /\
    list_byte_of_string t = hello /\
    String.length t = 11.
Proof.
  exact (AsText_lossless ignore_text r0 (with_body (stream_of hello)) hello
           (readable_with_body hello)).
Defined.

Lemma AsText_frame_run :
  exists t e s1,
    AsText ignore_text (Some r0) None (with_body (stream_of hello)) =
      (Normal tt, record (EvText t e) s1) /\
    cells s1 = cells (with_body (stream_of hello)) /\
    log s1 = [] /\
    unmarshals (trace s1) = [] /\
    (forall b, (forall r, Some r0 = Some r -> b <> Body r) ->
       streams s1 !! b = streams (with_body (stream_of hello)) !! b).
Proof.
  apply (AsText_frame ignore_text (Some r0) None (with_body (stream_of hello))).
  discriminate.
Defined.

Lemma AsJSON_frame_run :
  exists e s1,
    AsJSON MyTypeDecoder.unmarshal_value (Some 0) ignore_err (Some r0) None
      (with_body (stream_of document)) = (Normal tt, record (EvJSON e) s1) /\
    log s1 = [] /\
    (forall b, (forall r, Some r0 = Some r -> b <> Body r) ->
       streams s1 !! b = streams (with_body (stream_of document)) !! b) /\
    (forall a, Some 0 <> Some a -> cells s1 !! a = cells (with_body (stream_of document)) !! a).
Proof.
  apply (AsJSON_frame MyTypeDecoder.unmarshal_value (Some 0) ignore_err (Some r0) None
           (with_body (stream_of document))).
  discriminate.
Defined.

Lemma AsText_second_read_run :
  exists s1,
    AsText ignore_text (Some r0) None
      (snd (AsText ignore_text (Some r0) None (with_body (stream_of hello)))) =
      (Normal tt, record (EvText "" None) s1).
Proof.
  apply (AsText_second_read ignore_text r0 (with_body (stream_of hello)) hello).
  - intros t e s. reflexivity.
  - apply readable_with_body.
Defined.


Lemma Request_decoder_exactly_once_run :
  exists t e,
    texts (trace (snd (run_func (Request_func (serving hello) None (AsText ignore_text))
                         (with_body (torn hello timeout))))) = [(t, e)].
Proof.
  destruct (Request_decoder_exactly_once MyTypeDecoder.unmarshal_value (serving hello) None
              ignore_text (Some 0) ignore_err (with_body (torn hello timeout)) r0
              (snd (Do (serving hello) None (with_body (torn hello timeout)))) eq_refl)
    as ((t & e & Htexts & _) & _).
  - intros t e s. reflexivity.
  - intros t e s. reflexivity.
  - intros e s. reflexivity.
  - intros e s. reflexivity.
  - exists t, e. exact Htexts.
Defined.
